(** * Aquaculture planning core: [otimizacao.py]

    A shallow embedding of the quantitative core of [otimizacao.py]
    (class [SistemaProdutivo], functions [simular_cenarios] and
    [otimizar_mix_ideal]) together with the properties stated about it.

    Numbers.  The Python code computes with [int] and [float].  Counts
    produced by [int(...)] are modelled as [Z].  Two embeddings of the
    other quantities are given.

    The first models them as exact rationals [Q], compared with [==].  The
    results stated on it relate the fields of a returned scenario to each
    other; on the program they read up to the rounding of binary64.

    The second, modules [Binary64] and [Float64], computes on IEEE 754
    doubles as the program does: [Binary64] has the loop body of the
    simulator, [Float64] the rest of the simulator and the mix optimizer.
    The results that depend on the rounding are stated on it: the counts
    of fish, the bottleneck, which species are in the ranking or in the
    decision set, ties, reported totals and exceptions.

    Python's [int(x)] truncates towards zero and, on a [float], raises
    [OverflowError] on an infinity and [ValueError] on a NaN; [x / y]
    raises [ZeroDivisionError] when [y] is zero, and a missing dictionary
    key raises [KeyError]; they are modelled as such. *)

From Stdlib Require Import ZArith QArith Qround List String Bool Lia Lqa.
From Stdlib Require Import Sorting.Sorted Sorting.Permutation.
From Stdlib Require Import PrimFloat FloatOps SpecFloat FloatAxioms.
Import ListNotations.

#[local] Set Warnings "-inexact-float".

Local Open Scope Q_scope.

(** ** Python primitives *)

Inductive Exc : Type :=
| ZeroDivisionError
| KeyError
| OverflowError
| ValueError
| TypeError
| PulpSolverError.

Inductive py (A : Type) : Type :=
| Ok (a : A)
| Raise (e : Exc).

Arguments Ok {A} a.
Arguments Raise {A} e.

Definition bind {A B : Type} (c : py A) (k : A -> py B) : py B :=
  match c with
  | Ok a => k a
  | Raise e => Raise e
  end.

Notation "x <- c ;; k" := (bind c (fun x => k))
  (at level 61, c at next level, right associativity).

(** [x / y] *)
Definition py_div (x y : Q) : py Q :=
  if Qeq_bool y 0 then Raise ZeroDivisionError else Ok (x / y).

(** [int(x)]: truncation towards zero. *)
Definition py_int (x : Q) : Z := Z.quot (Qnum x) (Zpos (Qden x)).

(** [x > y] and [x <= y] on numbers. *)
Definition py_gt (x y : Q) : bool := negb (Qle_bool x y).
Definition py_le (x y : Q) : bool := Qle_bool x y.

(** [sorted(l, key=..., reverse=True)] once the keys have been computed:
    a stable sort by decreasing key.  [insere] puts a new element, which
    comes earlier in the input than everything already placed, in front of
    the first element whose key is not larger. *)
Section Sorted.
Context {A : Type}.

Fixpoint insere (x : Q * A) (l : list (Q * A)) : list (Q * A) :=
  match l with
  | [] => [x]
  | y :: l' => if Qle_bool (fst y) (fst x) then x :: y :: l'
               else y :: insere x l'
  end.

Fixpoint ordena (l : list (Q * A)) : list (Q * A) :=
  match l with
  | [] => []
  | x :: l' => insere x (ordena l')
  end.

Fixpoint decora (key : A -> py Q) (l : list A) : py (list (Q * A)) :=
  match l with
  | [] => Ok []
  | x :: l' => k <- key x ;; r <- decora key l' ;; Ok ((k, x) :: r)
  end.

Definition sorted_reverse (l : list A) (key : A -> py Q) : py (list A) :=
  d <- decora key l ;; Ok (map snd (ordena d)).

(** Decreasing keys. *)
Definition decrescente (x y : Q * A) : Prop := fst y <= fst x.
End Sorted.

(** ** 1. Species records (rows of the spreadsheet) *)

Record Especie : Type := mkEspecie {
  nome : string;
  valor_mercado_kg : Q;
  peso_final_ideal_kg : Q;
  peso_inicial_g : Q;
  taxa_mortalidade : Q;
  densidade_max_kg_m3 : Q;
  conversao_alimentar : Q;
  tempo_ciclo_meses : Q;
  custo_alevino_un : Q;
  custo_racao_kg : Q
}.

(** ** 2. [class SistemaProdutivo] *)

Record SistemaProdutivo : Type := mkSistemaProdutivo {
  capital_giro : Q;
  qtd_tanques : Z;
  vol_por_tanque : Q;
  custo_fixo_mensal : Q;
  volume_total : Q;
  fator_sistema : Q;
  nome_sistema : string
}.

(** [SistemaProdutivo.__init__] *)
Definition SistemaProdutivo_init
    (capital : Q) (qtd : Z) (vol_tanque : Q) (custo_fixo : Q)
    (sistema_opcao : Z) : SistemaProdutivo :=
  let volume := inject_Z qtd * vol_tanque in
  if (sistema_opcao =? 1)%Z then
    mkSistemaProdutivo capital qtd vol_tanque custo_fixo volume
                       0.10 "EXTENSIVO"
  else if (sistema_opcao =? 2)%Z then
    mkSistemaProdutivo capital qtd vol_tanque custo_fixo volume
                       0.40 "SEMI-INTENSIVO"
  else
    mkSistemaProdutivo capital qtd vol_tanque custo_fixo volume
                       1.00 "INTENSIVO".

(** ** 3. [simular_cenarios] *)

Inductive Status : Type := VIAVEL | INVIAVEL.
Inductive Motivo : Type := CustoFixoExcedeCapital | CapitalInsuficiente.
Inductive Gargalo : Type := FINANCEIRO | FISICO.

(** The dictionary appended for a viable species. *)
Record Cenario : Type := mkCenario {
  especie : string;
  dados_tec : Especie;
  qtd_povoamento : Z;
  biomassa_kg : Q;
  custo_alevinos : Q;
  custo_racao : Q;
  custo_fixo : Q;
  custo_total : Q;
  custo_kg_produzido : Q;
  receita : Q;
  lucro_liquido : Q;
  lucro_mensal : Q;
  roi : Q;
  payback_meses : Q;
  racao_ton : Q;
  ocupacao : Q;
  gargalo : Gargalo;
  ponto_equilibrio : Q
}.

(** An element of [resultados]: either of the two dictionary shapes. *)
Inductive Resultado : Type :=
| Viavel (c : Cenario)
| Inviavel (esp_nome : string) (motivo : Motivo).

Definition status (r : Resultado) : Status :=
  match r with
  | Viavel _ => VIAVEL
  | Inviavel _ _ => INVIAVEL
  end.

Definition e_viavel (r : Resultado) : bool :=
  match status r with
  | VIAVEL => true
  | INVIAVEL => false
  end.

(** [x['lucro_mensal']]: the key exists only in the viable shape. *)
Definition chave_lucro_mensal (r : Resultado) : py Q :=
  match r with
  | Viavel c => Ok (lucro_mensal c)
  | Inviavel _ _ => Raise KeyError
  end.

(** Intermediate quantities of the loop body, in the order of the source. *)
Definition ganho_peso (esp : Especie) : Q :=
  peso_final_ideal_kg esp - peso_inicial_g esp / 1000.

Definition consumo_racao_kg_por_peixe (esp : Especie) : Q :=
  ganho_peso esp * conversao_alimentar esp.

Definition custo_alim_un (esp : Especie) : Q :=
  consumo_racao_kg_por_peixe esp * custo_racao_kg esp.

Definition custo_var_unit (esp : Especie) : Q :=
  custo_alevino_un esp + custo_alim_un esp.

Definition custo_fixo_ciclo (sis : SistemaProdutivo) (esp : Especie) : Q :=
  custo_fixo_mensal sis * tempo_ciclo_meses esp.

Definition densidade_real_aplicada (sis : SistemaProdutivo) (esp : Especie) : Q :=
  densidade_max_kg_m3 esp * fator_sistema sis.

Definition biomassa_max (sis : SistemaProdutivo) (esp : Especie) : Q :=
  volume_total sis * densidade_real_aplicada sis esp.

Definition max_fisico (sis : SistemaProdutivo) (esp : Especie) : py Z :=
  q <- py_div (biomassa_max sis esp) (peso_final_ideal_kg esp) ;;
  Ok (py_int q).

Definition orcamento_operacional (sis : SistemaProdutivo) (esp : Especie) : Q :=
  capital_giro sis - custo_fixo_ciclo sis esp.

Definition max_financeiro (sis : SistemaProdutivo) (esp : Especie) : py Z :=
  q <- py_div (orcamento_operacional sis esp) (custo_var_unit esp) ;;
  Ok (py_int q).

(** Survivors at the end of the cycle. *)
Definition peixes_finais (esp : Especie) (qtd_real : Z) : Z :=
  py_int (inject_Z qtd_real * (1 - taxa_mortalidade esp)).

(** Step 5 of the loop body: the consolidation of a viable scenario. *)
Definition consolida (sis : SistemaProdutivo) (esp : Especie)
    (max_fis max_fin qtd_real : Z) : py Resultado :=
  let biomassa_vendida_kg :=
    inject_Z (peixes_finais esp qtd_real) * peso_final_ideal_kg esp in
  let investimento_alevinos := inject_Z qtd_real * custo_alevino_un esp in
  let investimento_racao :=
    inject_Z qtd_real * consumo_racao_kg_por_peixe esp * custo_racao_kg esp in
  let custo_total_ciclo :=
    investimento_alevinos + investimento_racao + custo_fixo_ciclo sis esp in
  let receita_bruta := biomassa_vendida_kg * valor_mercado_kg esp in
  let lucro_liq := receita_bruta - custo_total_ciclo in
  custo_producao_por_kg <-
    (if py_gt biomassa_vendida_kg 0
     then py_div custo_total_ciclo biomassa_vendida_kg else Ok 0) ;;
  ponto_equilibrio_kg <- py_div custo_total_ciclo (valor_mercado_kg esp) ;;
  roi_frac <- py_div lucro_liq custo_total_ciclo ;;
  let roi_ := roi_frac * 100 in
  lucro_mes <- py_div lucro_liq (tempo_ciclo_meses esp) ;;
  let racao_total_ton :=
    (inject_Z qtd_real * consumo_racao_kg_por_peixe esp) / 1000 in
  payback <-
    (if py_gt lucro_mes 0 then py_div custo_total_ciclo lucro_mes else Ok 0) ;;
  ocup_frac <- py_div (inject_Z qtd_real) (inject_Z max_fis) ;;
  let ocup := ocup_frac * 100 in
  let garg := if (max_fin <? max_fis)%Z then FINANCEIRO else FISICO in
  Ok (Viavel
        {| especie := nome esp;
           dados_tec := esp;
           qtd_povoamento := qtd_real;
           biomassa_kg := biomassa_vendida_kg;
           custo_alevinos := investimento_alevinos;
           custo_racao := investimento_racao;
           custo_fixo := custo_fixo_ciclo sis esp;
           custo_total := custo_total_ciclo;
           custo_kg_produzido := custo_producao_por_kg;
           receita := receita_bruta;
           lucro_liquido := lucro_liq;
           lucro_mensal := lucro_mes;
           roi := roi_;
           payback_meses := payback;
           racao_ton := racao_total_ton;
           ocupacao := ocup;
           gargalo := garg;
           ponto_equilibrio := ponto_equilibrio_kg |}).

(** The body of [for esp in especies_db]: the dictionary it appends. *)
Definition simular_especie (sis : SistemaProdutivo) (esp : Especie)
  : py Resultado :=
  max_fis <- max_fisico sis esp ;;
  if py_le (orcamento_operacional sis esp) 0 then
    Ok (Inviavel (nome esp) CustoFixoExcedeCapital)
  else
    max_fin <- max_financeiro sis esp ;;
    let qtd_real := Z.min max_fis max_fin in
    if (qtd_real <=? 0)%Z then
      Ok (Inviavel (nome esp) CapitalInsuficiente)
    else
      consolida sis esp max_fis max_fin qtd_real.

(** The loop, threading the list [resultados]. *)
Fixpoint laco_especies (sis : SistemaProdutivo) (especies_db : list Especie)
    (resultados : list Resultado) : py (list Resultado) :=
  match especies_db with
  | [] => Ok resultados
  | esp :: resto =>
      r <- simular_especie sis esp ;;
      laco_especies sis resto (resultados ++ [r])
  end.

Definition simular_cenarios (sis : SistemaProdutivo) (especies_db : list Especie)
  : py (list Resultado) :=
  resultados <- laco_especies sis especies_db [] ;;
  sorted_reverse (filter e_viavel resultados) chave_lucro_mensal.

(** ** The loop body on binary64

    The same lines of [simular_cenarios], computed with IEEE 754 double
    precision as Python's [float] does, to replay a scenario with the
    rounding the program really performs.  A number of the spreadsheet or of
    the form, kept in the records as the decimal fraction that was typed,
    enters as the double nearest to it; an [int] enters exactly.  [int(x)]
    raises [OverflowError] on an infinity and [ValueError] on a NaN. *)
Module Binary64.
Local Open Scope float_scope.

Definition of_int (z : Z) : float :=
  SF2Prim (binary_normalize prec emax z 0 false).

Definition of_Q (q : Q) : float := of_int (Qnum q) / of_int (Zpos (Qden q)).

Definition py_div (x y : float) : py float :=
  if PrimFloat.eqb y 0 then Raise ZeroDivisionError else Ok (x / y).

Definition py_int (x : float) : py Z :=
  match Prim2SF x with
  | S754_zero _ => Ok 0%Z
  | S754_finite s m e =>
      let v := if (0 <=? e)%Z then Z.shiftl (Zpos m) e
               else Z.shiftr (Zpos m) (- e) in
      Ok (if s then (- v)%Z else v)
  | S754_infinity _ => Raise OverflowError
  | S754_nan => Raise ValueError
  end.

Record Cenario : Type := mkCenario {
  especie : string;
  dados_tec : Especie;
  qtd_povoamento : Z;
  biomassa_kg : float;
  custo_alevinos : float;
  custo_racao : float;
  custo_fixo : float;
  custo_total : float;
  custo_kg_produzido : float;
  receita : float;
  lucro_liquido : float;
  lucro_mensal : float;
  roi : float;
  payback_meses : float;
  racao_ton : float;
  ocupacao : float;
  gargalo : Gargalo;
  ponto_equilibrio : float
}.

Inductive Resultado : Type :=
| Viavel (c : Cenario)
| Inviavel (esp_nome : string) (motivo : Motivo).

Definition simular_especie (sis : SistemaProdutivo) (esp : Especie)
  : py Resultado :=
  let volume_total := of_int (qtd_tanques sis) * of_Q (vol_por_tanque sis) in
  let ganho_peso :=
    of_Q (peso_final_ideal_kg esp) - of_Q (peso_inicial_g esp) / 1000 in
  let consumo_racao_kg_por_peixe := ganho_peso * of_Q (conversao_alimentar esp) in
  let custo_alim_un := consumo_racao_kg_por_peixe * of_Q (custo_racao_kg esp) in
  let custo_var_unit := of_Q (custo_alevino_un esp) + custo_alim_un in
  let custo_fixo_ciclo :=
    of_Q (custo_fixo_mensal sis) * of_Q (tempo_ciclo_meses esp) in
  let densidade_real_aplicada :=
    of_Q (densidade_max_kg_m3 esp) * of_Q (fator_sistema sis) in
  let biomassa_max := volume_total * densidade_real_aplicada in
  q_fis <- py_div biomassa_max (of_Q (peso_final_ideal_kg esp)) ;;
  max_fisico <- py_int q_fis ;;
  let orcamento_operacional := of_Q (capital_giro sis) - custo_fixo_ciclo in
  if PrimFloat.leb orcamento_operacional 0 then
    Ok (Inviavel (nome esp) CustoFixoExcedeCapital)
  else
    q_fin <- py_div orcamento_operacional custo_var_unit ;;
    max_financeiro <- py_int q_fin ;;
    let qtd_real := Z.min max_fisico max_financeiro in
    if (qtd_real <=? 0)%Z then
      Ok (Inviavel (nome esp) CapitalInsuficiente)
    else
      peixes_finais <-
        py_int (of_int qtd_real * (1 - of_Q (taxa_mortalidade esp))) ;;
      let biomassa_vendida_kg :=
        of_int peixes_finais * of_Q (peso_final_ideal_kg esp) in
      let investimento_alevinos :=
        of_int qtd_real * of_Q (custo_alevino_un esp) in
      let investimento_racao :=
        of_int qtd_real * consumo_racao_kg_por_peixe
        * of_Q (custo_racao_kg esp) in
      let custo_total_ciclo :=
        investimento_alevinos + investimento_racao + custo_fixo_ciclo in
      let receita_bruta := biomassa_vendida_kg * of_Q (valor_mercado_kg esp) in
      let lucro_liq := receita_bruta - custo_total_ciclo in
      custo_producao_por_kg <-
        (if PrimFloat.ltb 0 biomassa_vendida_kg
         then py_div custo_total_ciclo biomassa_vendida_kg else Ok 0) ;;
      ponto_equilibrio_kg <-
        py_div custo_total_ciclo (of_Q (valor_mercado_kg esp)) ;;
      roi_frac <- py_div lucro_liq custo_total_ciclo ;;
      lucro_mes <- py_div lucro_liq (of_Q (tempo_ciclo_meses esp)) ;;
      let racao_total_ton :=
        (of_int qtd_real * consumo_racao_kg_por_peixe) / 1000 in
      payback <-
        (if PrimFloat.ltb 0 lucro_mes
         then py_div custo_total_ciclo lucro_mes else Ok 0) ;;
      ocup_frac <- py_div (of_int qtd_real) (of_int max_fisico) ;;
      Ok (Viavel
            {| especie := nome esp;
               dados_tec := esp;
               qtd_povoamento := qtd_real;
               biomassa_kg := biomassa_vendida_kg;
               custo_alevinos := investimento_alevinos;
               custo_racao := investimento_racao;
               custo_fixo := custo_fixo_ciclo;
               custo_total := custo_total_ciclo;
               custo_kg_produzido := custo_producao_por_kg;
               receita := receita_bruta;
               lucro_liquido := lucro_liq;
               lucro_mensal := lucro_mes;
               roi := roi_frac * 100;
               payback_meses := payback;
               racao_ton := racao_total_ton;
               ocupacao := ocup_frac * 100;
               gargalo := if (max_financeiro <? max_fisico)%Z
                          then FINANCEIRO else FISICO;
               ponto_equilibrio := ponto_equilibrio_kg |}).
End Binary64.

(** ** 3.1 [otimizar_mix_ideal] *)

(** An entry of [model_data]. *)
Module ModelData.
Record t : Type := mk {
  nome : string;
  lucro_un : Q;
  custo_un : Q;
  peso_final : Q;
  tempo_ciclo : Q;
  max_fisico : Z
}.
End ModelData.

(** An entry of the returned [mix]. *)
Module MixItem.
Record t : Type := mk {
  especie : string;
  qtd : Z;
  peso : Q;
  ciclo : Q;
  ocupacao : Q
}.
End MixItem.

(** The body of the preparation loop: the entry appended to [model_data],
    if any. *)
Definition prepara_especie (sis : SistemaProdutivo) (esp : Especie)
  : py (option ModelData.t) :=
  max_fis <- max_fisico sis esp ;;
  let receita_un := peso_final_ideal_kg esp * valor_mercado_kg esp in
  custo_fixo_rateado <-
    (if (max_fis >? 0)%Z
     then py_div (custo_fixo_mensal sis * tempo_ciclo_meses esp) (inject_Z max_fis)
     else Ok 0) ;;
  let lucro := receita_un - custo_var_unit esp - custo_fixo_rateado in
  if (max_fis >? 0)%Z then
    Ok (Some {| ModelData.nome := nome esp;
                ModelData.lucro_un := lucro;
                ModelData.custo_un := custo_var_unit esp;
                ModelData.peso_final := peso_final_ideal_kg esp;
                ModelData.tempo_ciclo := tempo_ciclo_meses esp;
                ModelData.max_fisico := max_fis |})
  else Ok None.

Fixpoint prepara_dados (sis : SistemaProdutivo) (especies_db : list Especie)
    (model_data : list ModelData.t) : py (list ModelData.t) :=
  match especies_db with
  | [] => Ok model_data
  | esp :: resto =>
      o <- prepara_especie sis esp ;;
      match o with
      | Some m => prepara_dados sis resto (model_data ++ [m])
      | None => prepara_dados sis resto model_data
      end
  end.

(** The part of PuLP the function uses: linear expressions over variables
    addressed by name, constraints, a problem, a status and the variable
    values left by the solver. *)
Definition LpAffineExpression : Type := list (string * Q).

Inductive Sentido : Type := LpConstraintLE | LpConstraintGE.

Record LpConstraint : Type := mkLpConstraint {
  lhs : LpAffineExpression;
  sentido : Sentido;
  rhs : Q
}.

(** Every variable is created with [lowBound=0, cat='Integer']. *)
Record LpProblem : Type := mkLpProblem {
  variaveis : list string;
  objetivo : LpAffineExpression;
  restricoes : list LpConstraint
}.

Inductive LpStatus : Type :=
| LpNotSolved | LpOptimal | LpInfeasible | LpUnbounded | LpUndefined.

Definition VarValues : Type := string -> Q.

(** [pulp.value] of a linear expression. *)
Fixpoint valor (e : LpAffineExpression) (v : VarValues) : Q :=
  match e with
  | [] => 0
  | (x, a) :: e' => a * v x + valor e' v
  end.

Definition satisfaz (v : VarValues) (c : LpConstraint) : Prop :=
  match sentido c with
  | LpConstraintLE => valor (lhs c) v <= rhs c
  | LpConstraintGE => rhs c <= valor (lhs c) v
  end.

(** A feasible assignment of a problem. *)
Definition factivel (p : LpProblem) (v : VarValues) : Prop :=
  (forall x, In x (variaveis p) -> 0 <= v x /\ exists n : Z, v x == inject_Z n)
  /\ (forall c, In c (restricoes p) -> satisfaz v c).

Definition Solver : Type := LpProblem -> LpStatus * VarValues.

(** What the function relies on from the solver, on the problem it is given:
    an [Optimal] status comes with a feasible assignment, and a problem
    without feasible assignment is reported [Infeasible]. *)
Definition contrato_solver (solve : Solver) (p : LpProblem) : Prop :=
  (fst (solve p) = LpOptimal -> factivel p (snd (solve p)))
  /\ ((forall v, ~ factivel p v) -> fst (solve p) = LpInfeasible).

Definition restricao_orcamento (sis : SistemaProdutivo)
    (model_data : list ModelData.t) : LpConstraint :=
  {| lhs := map (fun m => (ModelData.nome m, ModelData.custo_un m)) model_data;
     sentido := LpConstraintLE;
     rhs := capital_giro sis |}.

Definition restricao_espaco (model_data : list ModelData.t) : LpConstraint :=
  {| lhs := map (fun m => (ModelData.nome m,
                           1 / inject_Z (ModelData.max_fisico m))) model_data;
     sentido := LpConstraintLE;
     rhs := 1 |}.

Definition restricao_meta (model_data : list ModelData.t) (meta_minima_kg : Q)
  : LpConstraint :=
  {| lhs := map (fun m => (ModelData.nome m, ModelData.peso_final m)) model_data;
     sentido := LpConstraintGE;
     rhs := meta_minima_kg |}.

(** The problem [prob] as it stands when [prob.solve] is called. *)
Definition monta_problema (sis : SistemaProdutivo)
    (model_data : list ModelData.t) (meta_minima_kg : Q) : LpProblem :=
  {| variaveis := map ModelData.nome model_data;
     objetivo := map (fun m => (ModelData.nome m, ModelData.lucro_un m)) model_data;
     restricoes :=
       [restricao_orcamento sis model_data; restricao_espaco model_data]
       ++ (if py_gt meta_minima_kg 0
           then [restricao_meta model_data meta_minima_kg] else []) |}.

Inductive MotivoMix : Type := RecursosInsuficientes | ErroNumerico.

(** The three dictionary shapes [otimizar_mix_ideal] returns. *)
Inductive MixResultado : Type :=
| OTIMO (lucro_total biomassa_total : Q) (mix : list MixItem.t)
        (payback_meses : Q)
| IMPOSSIVEL (motivo : MotivoMix)
| ERRO (motivo : MotivoMix).

(** The accumulators of the loop over [model_data] after an optimal solve. *)
Record Acumulado : Type := mkAcumulado {
  custo_total_mix : Q;
  mix : list MixItem.t;
  biomassa_total : Q;
  max_ciclo : Q
}.

(** [custo_total_mix = 0], [mix = []], [biomassa_total = 0],
    [max_ciclo = 0]. *)
Definition acumulado_inicial : Acumulado :=
  {| custo_total_mix := 0; mix := []; biomassa_total := 0; max_ciclo := 0 |}.

Fixpoint laco_mix (v : VarValues) (model_data : list ModelData.t)
    (a : Acumulado) : py Acumulado :=
  match model_data with
  | [] => Ok a
  | m :: resto =>
      let qtd := v (ModelData.nome m) in
      if py_gt qtd 0 then
        let peso := qtd * ModelData.peso_final m in
        let custo := qtd * ModelData.custo_un m in
        oc <- py_div qtd (inject_Z (ModelData.max_fisico m)) ;;
        laco_mix v resto
          {| custo_total_mix := custo_total_mix a + custo;
             mix := mix a ++ [ {| MixItem.especie := ModelData.nome m;
                                  MixItem.qtd := py_int qtd;
                                  MixItem.peso := peso;
                                  MixItem.ciclo := ModelData.tempo_ciclo m;
                                  MixItem.ocupacao := oc * 100 |} ];
             biomassa_total := biomassa_total a + peso;
             max_ciclo := if py_gt (ModelData.tempo_ciclo m) (max_ciclo a)
                          then ModelData.tempo_ciclo m else max_ciclo a |}
      else laco_mix v resto a
  end.

(** [lucro_mensal_mix] and [payback_mix]. *)
Definition lucro_mensal_mix (lucro_total max_ciclo : Q) : py Q :=
  if py_gt max_ciclo 0 then py_div lucro_total max_ciclo else Ok 0.

Definition payback_mix (sis : SistemaProdutivo)
    (lucro_total custo_total_mix max_ciclo : Q) : py Q :=
  let custo_total_mix_final :=
    custo_total_mix + custo_fixo_mensal sis * max_ciclo in
  lm <- lucro_mensal_mix lucro_total max_ciclo ;;
  if py_gt lm 0 then py_div custo_total_mix_final lm else Ok 0.

Section Otimizador.
(** The solver is an external collaborator: [prob.solve(PULP_CBC_CMD)]. *)
Variable solve : Solver.

Definition interpreta (sis : SistemaProdutivo)
    (model_data : list ModelData.t) (p : LpProblem) : py MixResultado :=
  match fst (solve p) with
  | LpOptimal =>
      let v := snd (solve p) in
      let lucro_total := valor (objetivo p) v in
      a <- laco_mix v model_data acumulado_inicial ;;
      pb <- payback_mix sis lucro_total (custo_total_mix a) (max_ciclo a) ;;
      Ok (OTIMO lucro_total (biomassa_total a) (mix a) pb)
  | LpInfeasible => Ok (IMPOSSIVEL RecursosInsuficientes)
  | _ => Ok (ERRO ErroNumerico)
  end.

Definition otimizar_mix_ideal (sis : SistemaProdutivo)
    (especies_db : list Especie) (meta_minima_kg : Q) : py MixResultado :=
  model_data <- prepara_dados sis especies_db [] ;;
  interpreta sis model_data (monta_problema sis model_data meta_minima_kg).
End Otimizador.

(** ** Aggregates of a mix, as sums over the selected species *)

(** A species is selected when its quantity is positive. *)
Definition selecionada (v : VarValues) (m : ModelData.t) : bool :=
  py_gt (v (ModelData.nome m)) 0.

Fixpoint soma {A : Type} (f : A -> Q) (l : list A) : Q :=
  match l with
  | [] => 0
  | x :: l' => f x + soma f l'
  end.

(** totalBiomass: realized biomass of the selected species. *)
Definition totalBiomass (v : VarValues) (model_data : list ModelData.t) : Q :=
  soma (fun m => v (ModelData.nome m) * ModelData.peso_final m)
       (filter (selecionada v) model_data).

(** totalVariableCost: variable cost of the selected species. *)
Definition totalVariableCost (v : VarValues) (model_data : list ModelData.t)
  : Q :=
  soma (fun m => v (ModelData.nome m) * ModelData.custo_un m)
       (filter (selecionada v) model_data).

(** max_cycle: an upper bound of the cycle durations of the selected
    species that is one of them, or 0 when none is positive. *)
Definition e_max_cycle (v : VarValues) (model_data : list ModelData.t)
    (mc : Q) : Prop :=
  0 <= mc
  /\ (forall m, In m (filter (selecionada v) model_data) ->
        ModelData.tempo_ciclo m <= mc)
  /\ (mc = 0 \/ exists m, In m (filter (selecionada v) model_data)
                          /\ mc = ModelData.tempo_ciclo m).

(** ** The quantities as the specification words them *)

(** physicalMaxCount = floor(totalVolumeM3 * maxDensityKgPerM3 *
    technologyFactor / targetFinalWeightKg). *)
Definition physicalMaxCount (sis : SistemaProdutivo) (esp : Especie) : Z :=
  Qfloor (volume_total sis * densidade_max_kg_m3 esp * fator_sistema sis
          / peso_final_ideal_kg esp).

(** financialMaxCount = floor((capital - monthlyFixedCost *
    cycleDurationMonths) / variableCostPerFish). *)
Definition financialMaxCount (sis : SistemaProdutivo) (esp : Especie) : Z :=
  Qfloor ((capital_giro sis - custo_fixo_mensal sis * tempo_ciclo_meses esp)
          / custo_var_unit esp).


(** The order of the ranking: both viable, monthly profit not increasing. *)
Definition ordem_ranking (a b : Resultado) : Prop :=
  exists ca cb, a = Viavel ca /\ b = Viavel cb
    /\ lucro_mensal cb <= lucro_mensal ca.

(** The data-model invariants of a species and of a production system. *)
Definition invariantes_especie (esp : Especie) : Prop :=
  0 <= valor_mercado_kg esp /\ 0 <= custo_alevino_un esp
  /\ 0 <= custo_racao_kg esp
  /\ 0 < peso_inicial_g esp / 1000
  /\ peso_inicial_g esp / 1000 < peso_final_ideal_kg esp
  /\ 0 < tempo_ciclo_meses esp.

Definition invariantes_sistema (sis : SistemaProdutivo) : Prop :=
  0 <= custo_fixo_mensal sis /\ 0 < volume_total sis.

(** ** A worked scenario

    One species and an intensive two-tank farm; the initial weight of
    0.1 kg is the spreadsheet's 100 g. *)
Definition especie_A : Especie :=
  {| nome := "A";
     valor_mercado_kg := 10;
     peso_final_ideal_kg := 1;
     peso_inicial_g := 100;
     taxa_mortalidade := 0.1;
     densidade_max_kg_m3 := 50;
     conversao_alimentar := 1.5;
     tempo_ciclo_meses := 6;
     custo_alevino_un := 0.5;
     custo_racao_kg := 4 |}.

Definition sistema_A : SistemaProdutivo :=
  SistemaProdutivo_init 10000 2 5 200 3.

(** The dictionary the simulator builds for [especie_A] on [sistema_A],
    with the fractions as the computation leaves them. *)
Definition cenario_A : Cenario :=
  {| especie := "A";
     dados_tec := especie_A;
     qtd_povoamento := 500;
     biomassa_kg := 450;
     custo_alevinos := 250.0;
     custo_racao := 2700.0000;
     custo_fixo := 1200;
     custo_total := 4150.00000;
     custo_kg_produzido := 415000000 # 45000000;
     receita := 4500;
     lucro_liquido := 350.00000;
     lucro_mensal := 35000000 # 600000;
     roi := 350000000000000 # 41500000000000;
     payback_meses := 249000000000000 # 3500000000000;
     racao_ton := 0.6750000;
     ocupacao := 50000 # 500;
     gargalo := FISICO;
     ponto_equilibrio := 415.000000 |}.

(** The same farm with too little capital: 1000 does not cover the fixed
    cost of the cycle (1200); 1203 covers it but leaves 3, less than one
    fish costs (5.9). *)
Definition sistema_sem_capital : SistemaProdutivo :=
  SistemaProdutivo_init 1000 2 5 200 3.

Definition sistema_pouco_capital : SistemaProdutivo :=
  SistemaProdutivo_init 1203 2 5 200 3.

(** Species within the data-model invariants for which a division of the
    loop body has a zero denominator: a fish that sells for nothing, and a
    fish that costs nothing to buy and to feed. *)
Definition especie_preco_zero : Especie :=
  {| nome := "B";
     valor_mercado_kg := 0;
     peso_final_ideal_kg := 1;
     peso_inicial_g := 100;
     taxa_mortalidade := 0.1;
     densidade_max_kg_m3 := 50;
     conversao_alimentar := 1.5;
     tempo_ciclo_meses := 6;
     custo_alevino_un := 0.5;
     custo_racao_kg := 4 |}.

Definition especie_custo_zero : Especie :=
  {| nome := "C";
     valor_mercado_kg := 10;
     peso_final_ideal_kg := 1;
     peso_inicial_g := 100;
     taxa_mortalidade := 0.1;
     densidade_max_kg_m3 := 50;
     conversao_alimentar := 1.5;
     tempo_ciclo_meses := 6;
     custo_alevino_un := 0;
     custo_racao_kg := 0 |}.

(** A second species, less profitable per month than [especie_A]. *)
Definition especie_D : Especie :=
  {| nome := "D";
     valor_mercado_kg := 12;
     peso_final_ideal_kg := 2;
     peso_inicial_g := 50;
     taxa_mortalidade := 0.2;
     densidade_max_kg_m3 := 40;
     conversao_alimentar := 1.8;
     tempo_ciclo_meses := 8;
     custo_alevino_un := 1;
     custo_racao_kg := 3 |}.

(** The dictionary the simulator builds for [especie_D] on [sistema_A]. *)
Definition cenario_D : Cenario :=
  {| especie := "D";
     dados_tec := especie_D;
     qtd_povoamento := 200;
     biomassa_kg := 320;
     custo_alevinos := 200;
     custo_racao := 2106.0000;
     custo_fixo := 1600;
     custo_total := 3906.0000;
     custo_kg_produzido := 39060000 # 3200000;
     receita := 3840;
     lucro_liquido := -66.0000;
     lucro_mensal := -660000 # 80000;
     roi := -660000000000 # 390600000000;
     payback_meses := 0;
     racao_ton := 0.7020000;
     ocupacao := 20000 # 200;
     gargalo := FISICO;
     ponto_equilibrio := 39060000 # 120000 |}.

(** The reading of the output under which infeasible results are returned:
    a species whose simulation ends infeasible appears, with its reason, in
    the list the simulator returns. *)
Definition relata_inviaveis (sis : SistemaProdutivo) (db : list Especie)
  : Prop :=
  forall rs esp n m,
    simular_cenarios sis db = Ok rs -> In esp db ->
    simular_especie sis esp = Ok (Inviavel n m) ->
    In (Inviavel n m) rs.

(** Two answers a solver may give on the catalogue [especie_A; especie_D]
    and [sistema_A]: 200 fish of D and none of A, which fills the tanks and
    is the most profitable mix; and no solution, for a target the tanks
    cannot hold. *)
Definition solver_otimo : Solver :=
  fun _ => (LpOptimal, fun x => if String.eqb x "D" then 200 else 0).

Definition solver_impossivel : Solver :=
  fun _ => (LpInfeasible, fun _ => 0).

(** [model_data] for that catalogue and farm, and the mix reported for
    [solver_otimo] with a target of 100 kg. *)
Definition model_data_AD : list ModelData.t :=
  [ {| ModelData.nome := "A";
       ModelData.lucro_un := 85000000 # 50000000;
       ModelData.custo_un := 5.90000;
       ModelData.peso_final := 1;
       ModelData.tempo_ciclo := 6;
       ModelData.max_fisico := 500 |};
    {| ModelData.nome := "D";
       ModelData.lucro_un := 8940000 # 2000000;
       ModelData.custo_un := 11.5300;
       ModelData.peso_final := 2;
       ModelData.tempo_ciclo := 8;
       ModelData.max_fisico := 200 |} ].

Definition mix_AD : list MixItem.t :=
  [ {| MixItem.especie := "D";
       MixItem.qtd := 200;
       MixItem.peso := 400;
       MixItem.ciclo := 8;
       MixItem.ocupacao := 20000 # 200 |} ].

Definition payback_AD : Q :=
  31248000000000000000000 # 894000000000000000000.

(** ** Values of the loop's local variables, on exact numbers

    [max_fisico], [max_financeiro], [qtd_real] and [custo_total_ciclo] of the
    loop body as functions of the farm and the species, for the embedding
    on exact rationals. *)
Definition teto_fisico (sis : SistemaProdutivo) (esp : Especie) : Z :=
  py_int (biomassa_max sis esp / peso_final_ideal_kg esp).

Definition teto_financeiro (sis : SistemaProdutivo) (esp : Especie) : Z :=
  py_int (orcamento_operacional sis esp / custo_var_unit esp).

Definition qtd_real (sis : SistemaProdutivo) (esp : Especie) : Z :=
  Z.min (teto_fisico sis esp) (teto_financeiro sis esp).

Definition custo_total_de (sis : SistemaProdutivo) (esp : Especie) (q : Z) : Q :=
  inject_Z q * custo_alevino_un esp
  + inject_Z q * consumo_racao_kg_por_peixe esp * custo_racao_kg esp
  + custo_fixo_ciclo sis esp.

(** ** The decision set of the optimizer, on exact numbers *)


(** The entry of [model_data] for such a species. *)
Definition entrada (sis : SistemaProdutivo) (esp : Especie) : ModelData.t :=
  {| ModelData.nome := nome esp;
     ModelData.lucro_un :=
       peso_final_ideal_kg esp * valor_mercado_kg esp - custo_var_unit esp
       - custo_fixo_mensal sis * tempo_ciclo_meses esp
         / inject_Z (teto_fisico sis esp);
     ModelData.custo_un := custo_var_unit esp;
     ModelData.peso_final := peso_final_ideal_kg esp;
     ModelData.tempo_ciclo := tempo_ciclo_meses esp;
     ModelData.max_fisico := teto_fisico sis esp |}.

(** A species record with another mortality rate. *)
Definition com_mortalidade (esp : Especie) (taxa : Q) : Especie :=
  {| nome := nome esp;
     valor_mercado_kg := valor_mercado_kg esp;
     peso_final_ideal_kg := peso_final_ideal_kg esp;
     peso_inicial_g := peso_inicial_g esp;
     taxa_mortalidade := taxa;
     densidade_max_kg_m3 := densidade_max_kg_m3 esp;
     conversao_alimentar := conversao_alimentar esp;
     tempo_ciclo_meses := tempo_ciclo_meses esp;
     custo_alevino_un := custo_alevino_un esp;
     custo_racao_kg := custo_racao_kg esp |}.

From Stdlib Require Import Ascii.

(** ** 4. [fmt_moeda] and [fmt_num]

    [s.replace(old, new)] for one-character [old] and [new] replaces every
    occurrence.  The two f-string formats [{valor:,.2f}] and [{valor:,.0f}]
    are Python's own and are taken as given. *)
Fixpoint str_replace (old new : ascii) (s : string) : string :=
  match s with
  | EmptyString => EmptyString
  | String c s' =>
      String (if Ascii.eqb c old then new else c) (str_replace old new s')
  end.

Section Formatacao.
Variable Numero : Type.
Variable formata_2f : Numero -> string.
Variable formata_0f : Numero -> string.

Definition fmt_moeda (valor : Numero) : string :=
  str_replace "X" "."
    (str_replace "." ","
       (str_replace "," "X" ("R$ " ++ formata_2f valor))).

Definition fmt_num (valor : Numero) : string :=
  str_replace "," "." (formata_0f valor).
End Formatacao.

(** Exchange of the decimal point and the thousands comma. *)
Definition troca_separador (c : ascii) : ascii :=
  if Ascii.eqb c "," then "."%char
  else if Ascii.eqb c "." then ","%char
  else c.

Fixpoint mapa (f : ascii -> ascii) (s : string) : string :=
  match s with
  | EmptyString => EmptyString
  | String c s' => String (f c) (mapa f s')
  end.

Fixpoint contem (c : ascii) (s : string) : bool :=
  match s with
  | EmptyString => false
  | String c' s' => Ascii.eqb c' c || contem c s'
  end.

(** ** The program on binary64

    [Binary64.simular_especie] above is the loop body with the arithmetic
    of the program.  This module names the intermediate values of that
    body, completes the simulator around it (loop, filter, sort) and gives
    the mix optimizer with the same arithmetic.

    The sort compares keys with [<] only, as [list.sort] does; keys are
    taken to be comparable (no NaN).  [x / n] for an [int] [n] converts [n]
    and raises [ZeroDivisionError] exactly when [n] is 0.

    An [int] that is converted to a [float] is taken to be in the range
    of binary64, as every [int] that came out of [int(...)] is.

    PuLP is the external collaborator of the optimizer: [prob.solve] may
    raise, and what is read back afterwards is the status, the value of
    each variable and [pulp.value(prob.objective)], which is [None] when
    PuLP has no value for the objective. *)
Module Float64.
Import Binary64.
Local Open Scope float_scope.

(** *** Local variables of the loop body of [simular_cenarios] *)

Definition volume_total (sis : SistemaProdutivo) : float :=
  of_int (qtd_tanques sis) * of_Q (vol_por_tanque sis).

Definition ganho_peso (esp : Especie) : float :=
  of_Q (peso_final_ideal_kg esp) - of_Q (peso_inicial_g esp) / 1000.

Definition consumo_racao_kg_por_peixe (esp : Especie) : float :=
  ganho_peso esp * of_Q (conversao_alimentar esp).

Definition custo_alim_un (esp : Especie) : float :=
  consumo_racao_kg_por_peixe esp * of_Q (custo_racao_kg esp).

Definition custo_var_unit (esp : Especie) : float :=
  of_Q (custo_alevino_un esp) + custo_alim_un esp.

Definition custo_fixo_ciclo (sis : SistemaProdutivo) (esp : Especie) : float :=
  of_Q (custo_fixo_mensal sis) * of_Q (tempo_ciclo_meses esp).

Definition densidade_real_aplicada (sis : SistemaProdutivo) (esp : Especie)
  : float :=
  of_Q (densidade_max_kg_m3 esp) * of_Q (fator_sistema sis).

Definition biomassa_max (sis : SistemaProdutivo) (esp : Especie) : float :=
  volume_total sis * densidade_real_aplicada sis esp.

(** Line 96: [int(biomassa_max / esp['peso_final_ideal_kg'])]. *)
Definition max_fisico (sis : SistemaProdutivo) (esp : Especie) : py Z :=
  q <- py_div (biomassa_max sis esp) (of_Q (peso_final_ideal_kg esp)) ;;
  py_int q.

Definition orcamento_operacional (sis : SistemaProdutivo) (esp : Especie)
  : float :=
  of_Q (capital_giro sis) - custo_fixo_ciclo sis esp.

(** Line 107: [int(orcamento_operacional / custo_var_unit)]. *)
Definition max_financeiro (sis : SistemaProdutivo) (esp : Especie) : py Z :=
  q <- py_div (orcamento_operacional sis esp) (custo_var_unit esp) ;;
  py_int q.

(** Lines 119 to 167: the consolidation of a viable scenario. *)
Definition consolida (sis : SistemaProdutivo) (esp : Especie)
    (max_fis max_fin qtd_real : Z) : py Resultado :=
  peixes_finais <-
    py_int (of_int qtd_real * (1 - of_Q (taxa_mortalidade esp))) ;;
  let biomassa_vendida_kg :=
    of_int peixes_finais * of_Q (peso_final_ideal_kg esp) in
  let investimento_alevinos := of_int qtd_real * of_Q (custo_alevino_un esp) in
  let investimento_racao :=
    of_int qtd_real * consumo_racao_kg_por_peixe esp
    * of_Q (custo_racao_kg esp) in
  let custo_total_ciclo :=
    investimento_alevinos + investimento_racao + custo_fixo_ciclo sis esp in
  let receita_bruta := biomassa_vendida_kg * of_Q (valor_mercado_kg esp) in
  let lucro_liq := receita_bruta - custo_total_ciclo in
  custo_producao_por_kg <-
    (if PrimFloat.ltb 0 biomassa_vendida_kg
     then py_div custo_total_ciclo biomassa_vendida_kg else Ok 0) ;;
  ponto_equilibrio_kg <-
    py_div custo_total_ciclo (of_Q (valor_mercado_kg esp)) ;;
  roi_frac <- py_div lucro_liq custo_total_ciclo ;;
  lucro_mes <- py_div lucro_liq (of_Q (tempo_ciclo_meses esp)) ;;
  let racao_total_ton :=
    (of_int qtd_real * consumo_racao_kg_por_peixe esp) / 1000 in
  payback <-
    (if PrimFloat.ltb 0 lucro_mes
     then py_div custo_total_ciclo lucro_mes else Ok 0) ;;
  ocup_frac <- py_div (of_int qtd_real) (of_int max_fis) ;;
  Ok (Viavel
        {| especie := nome esp;
           dados_tec := esp;
           qtd_povoamento := qtd_real;
           biomassa_kg := biomassa_vendida_kg;
           custo_alevinos := investimento_alevinos;
           custo_racao := investimento_racao;
           custo_fixo := custo_fixo_ciclo sis esp;
           custo_total := custo_total_ciclo;
           custo_kg_produzido := custo_producao_por_kg;
           receita := receita_bruta;
           lucro_liquido := lucro_liq;
           lucro_mensal := lucro_mes;
           roi := roi_frac * 100;
           payback_meses := payback;
           racao_ton := racao_total_ton;
           ocupacao := ocup_frac * 100;
           gargalo := if (max_fin <? max_fis)%Z then FINANCEIRO else FISICO;
           ponto_equilibrio := ponto_equilibrio_kg |}).

(** *** The loop, the filter and the sort of [simular_cenarios] *)

Definition e_viavel (r : Resultado) : bool :=
  match r with
  | Viavel _ => true
  | Inviavel _ _ => false
  end.

Definition chave_lucro_mensal (r : Resultado) : py float :=
  match r with
  | Viavel c => Ok (lucro_mensal c)
  | Inviavel _ _ => Raise KeyError
  end.

Fixpoint insere {A : Type} (x : float * A) (l : list (float * A))
  : list (float * A) :=
  match l with
  | [] => [x]
  | y :: l' => if PrimFloat.ltb (fst x) (fst y) then y :: insere x l'
               else x :: y :: l'
  end.

Fixpoint ordena {A : Type} (l : list (float * A)) : list (float * A) :=
  match l with
  | [] => []
  | x :: l' => insere x (ordena l')
  end.

Fixpoint decora {A : Type} (key : A -> py float) (l : list A)
  : py (list (float * A)) :=
  match l with
  | [] => Ok []
  | x :: l' => k <- key x ;; r <- decora key l' ;; Ok ((k, x) :: r)
  end.

Definition sorted_reverse {A : Type} (l : list A) (key : A -> py float)
  : py (list A) :=
  d <- decora key l ;; Ok (map snd (ordena d)).

Fixpoint laco_especies (sis : SistemaProdutivo) (especies_db : list Especie)
    (resultados : list Resultado) : py (list Resultado) :=
  match especies_db with
  | [] => Ok resultados
  | esp :: resto =>
      r <- simular_especie sis esp ;;
      laco_especies sis resto (resultados ++ [r])
  end.

Definition simular_cenarios (sis : SistemaProdutivo)
    (especies_db : list Especie) : py (list Resultado) :=
  resultados <- laco_especies sis especies_db [] ;;
  sorted_reverse (filter e_viavel resultados) chave_lucro_mensal.

(** [r['dados_tec']], where the key exists. *)
Definition dados_de (r : Resultado) : option Especie :=
  match r with
  | Viavel c => Some (dados_tec c)
  | Inviavel _ _ => None
  end.


(** A species with money left after the fixed cost and, by lines 96 and
    107, room and money for at least one fish. *)
Definition criterio_viavel (sis : SistemaProdutivo) (esp : Especie) : bool :=
  match max_fisico sis esp, max_financeiro sis esp with
  | Ok mf, Ok mfin =>
      negb (PrimFloat.leb (orcamento_operacional sis esp) 0)
      && (0 <? Z.min mf mfin)%Z
  | _, _ => false
  end.

(** *** [otimizar_mix_ideal] *)

(** [x / n] for an [int] [n]. *)
Definition py_div_int (x : float) (n : Z) : py float :=
  if (n =? 0)%Z then Raise ZeroDivisionError else Ok (x / of_int n).

Record Dado : Type := mkDado {
  d_nome : string;
  lucro_un : float;
  custo_un : float;
  peso_final : float;
  tempo_ciclo : float;
  d_max_fisico : Z
}.

Record Item : Type := mkItem {
  i_especie : string;
  qtd : Z;
  peso : float;
  ciclo : float;
  i_ocupacao : float
}.

(** The body of the preparation loop, lines 186 to 210. *)
Definition prepara_especie (sis : SistemaProdutivo) (esp : Especie)
  : py (option Dado) :=
  max_fis <- max_fisico sis esp ;;
  let receita_un := of_Q (peso_final_ideal_kg esp) * of_Q (valor_mercado_kg esp) in
  custo_fixo_rateado <-
    (if (max_fis >? 0)%Z
     then py_div_int
            (of_Q (custo_fixo_mensal sis) * of_Q (tempo_ciclo_meses esp))
            max_fis
     else Ok 0) ;;
  let lucro := receita_un - custo_var_unit esp - custo_fixo_rateado in
  if (max_fis >? 0)%Z then
    Ok (Some {| d_nome := nome esp;
                lucro_un := lucro;
                custo_un := custo_var_unit esp;
                peso_final := of_Q (peso_final_ideal_kg esp);
                tempo_ciclo := of_Q (tempo_ciclo_meses esp);
                d_max_fisico := max_fis |})
  else Ok None.

Fixpoint prepara_dados (sis : SistemaProdutivo) (especies_db : list Especie)
    (model_data : list Dado) : py (list Dado) :=
  match especies_db with
  | [] => Ok model_data
  | esp :: resto =>
      o <- prepara_especie sis esp ;;
      match o with
      | Some m => prepara_dados sis resto (model_data ++ [m])
      | None => prepara_dados sis resto model_data
      end
  end.

(** A term given to [lpSum], as the source writes it: a coefficient times
    a variable, or a variable over an [int]. *)
Inductive Termo : Type :=
| Vezes (coef : float) (var : string)
| Sobre (var : string) (divisor : Z).

(** The problem handed to PuLP: the variables, the terms of the objective
    and, for each constraint, its terms, sense and right-hand side. *)
Record Restricao : Type := mkRestricao {
  r_lhs : list Termo;
  r_sentido : Sentido;
  r_rhs : float
}.

Record Problema : Type := mkProblema {
  p_variaveis : list string;
  p_objetivo : list Termo;
  p_restricoes : list Restricao
}.

Definition restricao_orcamento (sis : SistemaProdutivo)
    (model_data : list Dado) : Restricao :=
  {| r_lhs := map (fun m => Vezes (custo_un m) (d_nome m)) model_data;
     r_sentido := LpConstraintLE;
     r_rhs := of_Q (capital_giro sis) |}.

Definition restricao_espaco (model_data : list Dado) : Restricao :=
  {| r_lhs := map (fun m => Sobre (d_nome m) (d_max_fisico m)) model_data;
     r_sentido := LpConstraintLE;
     r_rhs := 1 |}.

Definition restricao_meta (model_data : list Dado) (meta_minima_kg : Q)
  : Restricao :=
  {| r_lhs := map (fun m => Vezes (peso_final m) (d_nome m)) model_data;
     r_sentido := LpConstraintGE;
     r_rhs := of_Q meta_minima_kg |}.

Definition monta_problema (sis : SistemaProdutivo) (model_data : list Dado)
    (meta_minima_kg : Q) : Problema :=
  {| p_variaveis := map d_nome model_data;
     p_objetivo := map (fun m => Vezes (lucro_un m) (d_nome m)) model_data;
     p_restricoes :=
       [restricao_orcamento sis model_data; restricao_espaco model_data]
       ++ (if PrimFloat.ltb 0 (of_Q meta_minima_kg)
           then [restricao_meta model_data meta_minima_kg] else []) |}.

(** What is read back from PuLP after [prob.solve] has returned. *)
Record Resolvido : Type := mkResolvido {
  lp_status : LpStatus;
  varValue : string -> float;
  valor_objetivo : option float
}.

Definition Solver : Type := Problema -> py Resolvido.

Inductive MixResultado : Type :=
| OTIMO (lucro_total : option float) (biomassa_total : float)
        (mix : list Item) (payback_meses : float)
| IMPOSSIVEL (motivo : MotivoMix)
| ERRO (motivo : MotivoMix).

Record Acumulado : Type := mkAcumulado {
  custo_total_mix : float;
  mix : list Item;
  biomassa_total : float;
  max_ciclo : float
}.

Definition acumulado_inicial : Acumulado :=
  {| custo_total_mix := 0; mix := []; biomassa_total := 0; max_ciclo := 0 |}.

(** The loop of lines 244 to 259. *)
Fixpoint laco_mix (v : string -> float) (model_data : list Dado)
    (a : Acumulado) : py Acumulado :=
  match model_data with
  | [] => Ok a
  | m :: resto =>
      let q := v (d_nome m) in
      if PrimFloat.ltb 0 q then
        let p := q * peso_final m in
        let custo := q * custo_un m in
        n <- py_int q ;;
        oc <- py_div_int q (d_max_fisico m) ;;
        laco_mix v resto
          {| custo_total_mix := custo_total_mix a + custo;
             mix := mix a ++ [ {| i_especie := d_nome m;
                                  qtd := n;
                                  peso := p;
                                  ciclo := tempo_ciclo m;
                                  i_ocupacao := oc * 100 |} ];
             biomassa_total := biomassa_total a + p;
             max_ciclo := if PrimFloat.ltb (max_ciclo a) (tempo_ciclo m)
                          then tempo_ciclo m else max_ciclo a |}
      else laco_mix v resto a
  end.

(** Lines 262 to 264; [None / max_ciclo] raises [TypeError]. *)
Definition payback_mix (sis : SistemaProdutivo) (lucro_total : option float)
    (custo_total_mix max_ciclo : float) : py float :=
  let custo_total_mix_final :=
    custo_total_mix + of_Q (custo_fixo_mensal sis) * max_ciclo in
  lm <- (if PrimFloat.ltb 0 max_ciclo
         then match lucro_total with
              | Some lt => py_div lt max_ciclo
              | None => Raise TypeError
              end
         else Ok 0) ;;
  if PrimFloat.ltb 0 lm then py_div custo_total_mix_final lm else Ok 0.

Definition interpreta (sis : SistemaProdutivo) (model_data : list Dado)
    (s : Resolvido) : py MixResultado :=
  match lp_status s with
  | LpOptimal =>
      a <- laco_mix (varValue s) model_data acumulado_inicial ;;
      pb <- payback_mix sis (valor_objetivo s) (custo_total_mix a)
                        (max_ciclo a) ;;
      Ok (OTIMO (valor_objetivo s) (biomassa_total a) (mix a) pb)
  | LpInfeasible => Ok (IMPOSSIVEL RecursosInsuficientes)
  | _ => Ok (ERRO ErroNumerico)
  end.

Definition otimizar_mix_ideal (solve : Solver) (sis : SistemaProdutivo)
    (especies_db : list Especie) (meta_minima_kg : Q) : py MixResultado :=
  model_data <- prepara_dados sis especies_db [] ;;
  s <- solve (monta_problema sis model_data meta_minima_kg) ;;
  interpreta sis model_data s.

(** *** Vocabulary of the statements *)

(** The entry appended to [model_data] for a species whose line 195 gave
    [max_fis]. *)
Definition entrada (sis : SistemaProdutivo) (esp : Especie) (max_fis : Z)
  : Dado :=
  {| d_nome := nome esp;
     lucro_un :=
       of_Q (peso_final_ideal_kg esp) * of_Q (valor_mercado_kg esp)
       - custo_var_unit esp
       - (of_Q (custo_fixo_mensal sis) * of_Q (tempo_ciclo_meses esp))
         / of_int max_fis;
     custo_un := custo_var_unit esp;
     peso_final := of_Q (peso_final_ideal_kg esp);
     tempo_ciclo := of_Q (tempo_ciclo_meses esp);
     d_max_fisico := max_fis |}.

(** The entries a species contributes to [model_data]: one if line 195
    gave a positive count, none otherwise. *)
Definition decisao (sis : SistemaProdutivo) (esp : Especie) : list Dado :=
  match max_fisico sis esp with
  | Ok max_fis => if (max_fis >? 0)%Z then [entrada sis esp max_fis] else []
  | Raise _ => []
  end.

(** [qtd > 0] at line 246. *)
Definition selecionado (v : string -> float) (m : Dado) : bool :=
  PrimFloat.ltb 0 (v (d_nome m)).

(** The entry of [mix] for a selected species, given [int(qtd)]. *)
Definition item_de (v : string -> float) (m : Dado) (n : Z) : Item :=
  {| i_especie := d_nome m;
     qtd := n;
     peso := v (d_nome m) * peso_final m;
     ciclo := tempo_ciclo m;
     i_ocupacao := v (d_nome m) / of_int (d_max_fisico m) * 100 |}.

(** An entry of [mix] is the one lines 253 to 259 build for [m]. *)
Definition item_do_dado (v : string -> float) (m : Dado) (it : Item) : Prop :=
  py_int (v (d_nome m)) = Ok (qtd it) /\ it = item_de v m (qtd it).

(** The weights of the items of a mix, added from left to right. *)
Definition soma_pesos (l : list Item) : float :=
  fold_left (fun s it => s + peso it) l 0.

(** [custo_total_mix] and [max_ciclo] after the loop of lines 244 to 259. *)
Definition soma_custos (v : string -> float) (l : list Dado) : float :=
  fold_left (fun s m => s + v (d_nome m) * custo_un m) l 0.

Definition maior_ciclo (l : list Dado) : float :=
  fold_left (fun mx m => if PrimFloat.ltb mx (tempo_ciclo m)
                         then tempo_ciclo m else mx) l 0.

(** The value of a list of terms at an assignment, added from left to
    right. *)
Definition valor_termos (v : string -> float) (l : list Termo) : float :=
  fold_left (fun s t => match t with
                        | Vezes c x => s + c * v x
                        | Sobre x d => s + v x / of_int d
                        end) l 0.
End Float64.


(** ** Inputs on which the rounding of the program shows *)

(** Species A on the farm of [sistema_A] with a capital of 4150: the exact
    quotients of lines 96 and 107 are both 500; in binary64 the unit cost
    is 5.9000000000000004 and line 107 gives 499. *)
Definition sistema_4150 : SistemaProdutivo :=
  SistemaProdutivo_init 4150 2 5 200 3.

Definition cenario_4150 : Binary64.Cenario :=
  {| Binary64.especie := "A";
     Binary64.dados_tec := especie_A;
     Binary64.qtd_povoamento := 499;
     Binary64.biomassa_kg := 449;
     Binary64.custo_alevinos := 249.5;
     Binary64.custo_racao := 2694.6000000000004;
     Binary64.custo_fixo := 1200;
     Binary64.custo_total := 4144.1000000000004;
     Binary64.custo_kg_produzido := 9.2296213808463268;
     Binary64.receita := 4490;
     Binary64.lucro_liquido := 345.89999999999964;
     Binary64.lucro_mensal := 57.649999999999942;
     Binary64.roi := 8.346806302936697;
     Binary64.payback_meses := 71.88378143972254;
     Binary64.racao_ton := 0.67365000000000008;
     Binary64.ocupacao := 99.799999999999997;
     Binary64.gargalo := FINANCEIRO;
     Binary64.ponto_equilibrio := 414.41000000000003 |}.







(** A species of 2.1 kg at 1 kg/m3 in three tanks of 0.7 m3: the exact
    quotient of line 96 is 1; in binary64 the volume is 2.0999999999999996
    and line 96 gives 0.  Species A on the same farm is stocked with 104
    fish. *)
Definition especie_L : Especie :=
  {| nome := "L";
     valor_mercado_kg := 10;
     peso_final_ideal_kg := 2.1;
     peso_inicial_g := 100;
     taxa_mortalidade := 0.1;
     densidade_max_kg_m3 := 1;
     conversao_alimentar := 1.5;
     tempo_ciclo_meses := 6;
     custo_alevino_un := 0.5;
     custo_racao_kg := 4 |}.

Definition sistema_L : SistemaProdutivo :=
  SistemaProdutivo_init 10000 3 0.7 200 3.

Definition cenario_104 : Binary64.Cenario :=
  {| Binary64.especie := "A";
     Binary64.dados_tec := especie_A;
     Binary64.qtd_povoamento := 104;
     Binary64.biomassa_kg := 93;
     Binary64.custo_alevinos := 52;
     Binary64.custo_racao := 561.60000000000002;
     Binary64.custo_fixo := 1200;
     Binary64.custo_total := 1813.5999999999999;
     Binary64.custo_kg_produzido := 19.501075268817203;
     Binary64.receita := 930;
     Binary64.lucro_liquido := -883.59999999999991;
     Binary64.lucro_mensal := -147.26666666666665;
     Binary64.roi := -48.72077635641817;
     Binary64.payback_meses := 0;
     Binary64.racao_ton := 0.1404;
     Binary64.ocupacao := 100;
     Binary64.gargalo := FISICO;
     Binary64.ponto_equilibrio := 181.35999999999999 |}.

(** A capital of 99.9 and a fixed cost of 33.3 a month, with a species of
    three months: the budget left is 0 exactly and 1.4e-14 in binary64.
    Species Z has no variable cost. *)
Definition sistema_999 : SistemaProdutivo :=
  SistemaProdutivo_init 99.9 2 5 33.3 3.

Definition especie_T : Especie :=
  {| nome := "T";
     valor_mercado_kg := 10;
     peso_final_ideal_kg := 1;
     peso_inicial_g := 100;
     taxa_mortalidade := 0.1;
     densidade_max_kg_m3 := 50;
     conversao_alimentar := 1.5;
     tempo_ciclo_meses := 3;
     custo_alevino_un := 0.5;
     custo_racao_kg := 4 |}.

Definition especie_Z : Especie :=
  {| nome := "Z";
     valor_mercado_kg := 10;
     peso_final_ideal_kg := 1;
     peso_inicial_g := 100;
     taxa_mortalidade := 0.1;
     densidade_max_kg_m3 := 50;
     conversao_alimentar := 0;
     tempo_ciclo_meses := 3;
     custo_alevino_un := 0;
     custo_racao_kg := 4 |}.

(** Ten tanks of 1e308 m3: the volume is an infinity. *)
Definition sistema_enorme : SistemaProdutivo :=
  SistemaProdutivo_init 10000 10 (10 ^ 308) 200 3.


(** Answers of the solver: [Optimal] with every variable at 0 and no value
    for the objective; 200 fish of D and none of any other species, with
    the objective evaluated at that assignment, and with no value for the
    objective; and a call of [prob.solve] that raises, as PuLP does when
    two variables get the same name. *)
Definition solver_sem_objetivo : Float64.Solver :=
  fun _ =>
    Ok {| Float64.lp_status := LpOptimal;
          Float64.varValue := fun _ => 0%float;
          Float64.valor_objetivo := None |}.

Definition valores_D (x : string) : float :=
  if String.eqb x "D" then 200%float else 0%float.

Definition solver_D : Float64.Solver :=
  fun p =>
    Ok {| Float64.lp_status := LpOptimal;
          Float64.varValue := valores_D;
          Float64.valor_objetivo :=
            Some (Float64.valor_termos valores_D (Float64.p_objetivo p)) |}.

Definition solver_D_sem_objetivo : Float64.Solver :=
  fun _ =>
    Ok {| Float64.lp_status := LpOptimal;
          Float64.varValue := valores_D;
          Float64.valor_objetivo := None |}.

Definition solver_colisao : Float64.Solver :=
  fun _ => Raise PulpSolverError.

(** * Proofs *)

(** ** The error monad *)

Lemma bind_Ok {A B : Type} (c : py A) (k : A -> py B) (b : B) :
  bind c k = Ok b -> exists a, c = Ok a /\ k a = Ok b.
Proof.
  destruct c as [a|e]; simpl; intros H; [eauto | discriminate].
Qed.

Lemma py_div_Ok (x y q : Q) :
  py_div x y = Ok q -> ~ y == 0 /\ q = x / y.
Proof.
  unfold py_div. destruct (Qeq_bool y 0) eqn:E; intros H; [discriminate|].
  injection H as <-. split; [|reflexivity].
  intros Hy. apply Qeq_bool_iff in Hy. congruence.
Qed.

Lemma py_div_nonzero (x y : Q) : ~ y == 0 -> py_div x y = Ok (x / y).
Proof.
  intros Hy. unfold py_div. destruct (Qeq_bool y 0) eqn:E; [|reflexivity].
  apply Qeq_bool_iff in E. contradiction.
Qed.

Lemma py_gt_true (x y : Q) : py_gt x y = true <-> y < x.
Proof.
  unfold py_gt. rewrite negb_true_iff.
  destruct (Qle_bool x y) eqn:E.
  - apply Qle_bool_iff in E. split; [discriminate|]. intros H.
    exfalso. exact (Qlt_not_le _ _ H E).
  - split; [|reflexivity]. intros _. apply Qnot_le_lt. intros H.
    apply Qle_bool_iff in H. congruence.
Qed.

Lemma py_gt_false (x y : Q) : py_gt x y = false <-> x <= y.
Proof.
  unfold py_gt. rewrite negb_false_iff. apply Qle_bool_iff.
Qed.

Lemma py_le_true (x y : Q) : py_le x y = true <-> x <= y.
Proof. apply Qle_bool_iff. Qed.

Lemma py_le_false (x y : Q) : py_le x y = false <-> y < x.
Proof.
  unfold py_le. split; intros H.
  - apply Qnot_le_lt. intros H'. apply Qle_bool_iff in H'. congruence.
  - destruct (Qle_bool x y) eqn:E; [|reflexivity].
    apply Qle_bool_iff in E. exfalso. exact (Qlt_not_le _ _ H E).
Qed.

Ltac inv_bind H :=
  let a := fresh "a" in
  let Ha := fresh "H" a in
  apply bind_Ok in H; destruct H as [a [Ha H]].

(** ** The simulator, one species *)

(** What a successful consolidation returns, field by field. *)
Lemma consolida_Ok sis esp mf mfin q r :
  consolida sis esp mf mfin q = Ok r ->
  exists c, r = Viavel c
    /\ especie c = nome esp
    /\ dados_tec c = esp
    /\ qtd_povoamento c = q
    /\ custo_alevinos c = inject_Z q * custo_alevino_un esp
    /\ custo_racao c =
         inject_Z q * consumo_racao_kg_por_peixe esp * custo_racao_kg esp
    /\ custo_fixo c = custo_fixo_ciclo sis esp
    /\ custo_total c = custo_alevinos c + custo_racao c + custo_fixo c
    /\ lucro_mensal c = lucro_liquido c / tempo_ciclo_meses esp
    /\ payback_meses c =
         (if py_gt (lucro_mensal c) 0
          then custo_total c / lucro_mensal c else 0)
    /\ (py_gt (lucro_mensal c) 0 = true -> ~ lucro_mensal c == 0)
    /\ ocupacao c = inject_Z q / inject_Z mf * 100
    /\ ~ inject_Z mf == 0
    /\ gargalo c = (if (mfin <? mf)%Z then FINANCEIRO else FISICO).
Proof.
  unfold consolida. intros H.
  inv_bind H. inv_bind H. inv_bind H. inv_bind H. inv_bind H. inv_bind H.
  injection H as <-. eexists. split; [reflexivity|]. simpl.
  apply py_div_Ok in Ha2. destruct Ha2 as [_ ->].
  apply py_div_Ok in Ha4. destruct Ha4 as [Hmf ->].
  repeat (split; [reflexivity|]).
  split; [|split; [|repeat split; auto]].
  - destruct (py_gt (_ / tempo_ciclo_meses esp) 0) eqn:E.
    + apply py_div_Ok in Ha3. tauto.
    + congruence.
  - intros E. rewrite py_gt_true in E. intros H0. rewrite H0 in E.
    exact (Qlt_irrefl _ E).
Qed.

(** The three ways the loop body can end without raising. *)
Lemma simular_especie_Ok sis esp r :
  simular_especie sis esp = Ok r ->
  exists mf, max_fisico sis esp = Ok mf /\
    ((orcamento_operacional sis esp <= 0
      /\ r = Inviavel (nome esp) CustoFixoExcedeCapital)
     \/ (0 < orcamento_operacional sis esp /\
         exists mfin, max_financeiro sis esp = Ok mfin /\
           (((Z.min mf mfin <= 0)%Z
             /\ r = Inviavel (nome esp) CapitalInsuficiente)
            \/ ((0 < Z.min mf mfin)%Z
                /\ consolida sis esp mf mfin (Z.min mf mfin) = Ok r)))).
Proof.
  unfold simular_especie. intros H. inv_bind H. exists a. split; [exact Ha|].
  destruct (py_le (orcamento_operacional sis esp) 0) eqn:E.
  - left. apply py_le_true in E. injection H as <-. auto.
  - right. apply py_le_false in E. split; [exact E|].
    inv_bind H. exists a0. split; [exact Ha0|].
    destruct (Z.min a a0 <=? 0)%Z eqn:E2.
    + left. apply Z.leb_le in E2. injection H as <-. auto.
    + right. apply Z.leb_gt in E2. auto.
Qed.

Lemma simular_especie_Viavel sis esp c :
  simular_especie sis esp = Ok (Viavel c) ->
  exists mf mfin,
    max_fisico sis esp = Ok mf /\ max_financeiro sis esp = Ok mfin
    /\ 0 < orcamento_operacional sis esp
    /\ (0 < Z.min mf mfin)%Z
    /\ consolida sis esp mf mfin (Z.min mf mfin) = Ok (Viavel c).
Proof.
  intros H. apply simular_especie_Ok in H.
  destruct H as [mf [Hmf [[_ H]|[Ho [mfin [Hmfin [[_ H]|[Hq H]]]]]]]];
    try discriminate.
  exists mf, mfin. auto.
Qed.

(** ** The loop over the catalogue *)

Lemma laco_especies_Ok sis db : forall acc rs,
  laco_especies sis db acc = Ok rs ->
  exists rs', rs = acc ++ rs'
    /\ Forall2 (fun esp r => simular_especie sis esp = Ok r) db rs'.
Proof.
  induction db as [|esp db IH]; simpl; intros acc rs H.
  - injection H as <-. exists []. rewrite app_nil_r. auto.
  - inv_bind H. apply IH in H. destruct H as [rs' [-> HF]].
    exists (a :: rs'). rewrite <- app_assoc. simpl. auto.
Qed.

Lemma laco_especies_total sis db : forall acc,
  (forall esp, In esp db -> exists r, simular_especie sis esp = Ok r) ->
  exists rs, laco_especies sis db acc = Ok rs.
Proof.
  induction db as [|esp db IH]; simpl; intros acc H.
  - eauto.
  - destruct (H esp (or_introl eq_refl)) as [r ->]. simpl.
    apply IH. intros e He. apply H. auto.
Qed.

(** ** [sorted(..., reverse=True)] *)

Section SortedProofs.
Context {A : Type}.

Lemma insere_perm (x : Q * A) l : Permutation (x :: l) (insere x l).
Proof.
  induction l as [|y l IH]; simpl; [reflexivity|].
  destruct (Qle_bool (fst y) (fst x)); [reflexivity|].
  rewrite perm_swap. now constructor.
Qed.

Lemma ordena_perm (l : list (Q * A)) : Permutation l (ordena l).
Proof.
  induction l as [|x l IH]; simpl; [constructor|].
  rewrite <- insere_perm. now constructor.
Qed.

Lemma insere_HdRel (x y : Q * A) l :
  decrescente y x -> HdRel decrescente y l ->
  HdRel decrescente y (insere x l).
Proof.
  intros Hyx Hl. destruct l as [|z l]; simpl; [now constructor|].
  destruct (Qle_bool (fst z) (fst x)); constructor; [exact Hyx|].
  now inversion Hl.
Qed.

Lemma insere_Sorted (x : Q * A) l :
  Sorted decrescente l -> Sorted decrescente (insere x l).
Proof.
  induction l as [|y l IH]; simpl; intros Hs.
  - repeat constructor.
  - inversion Hs as [|? ? Hs' Hhd]; subst.
    destruct (Qle_bool (fst y) (fst x)) eqn:E.
    + apply Qle_bool_iff in E. constructor; [exact Hs|]. now constructor.
    + constructor; [now apply IH|]. apply insere_HdRel; [|exact Hhd].
      unfold decrescente. apply Qlt_le_weak, Qnot_le_lt. intros H.
      apply Qle_bool_iff in H. congruence.
Qed.

Lemma ordena_Sorted (l : list (Q * A)) : Sorted decrescente (ordena l).
Proof.
  induction l as [|x l IH]; simpl; [constructor|]. now apply insere_Sorted.
Qed.

Lemma decora_Ok (key : A -> py Q) : forall l d,
  decora key l = Ok d ->
  map snd d = l /\ Forall (fun kx => key (snd kx) = Ok (fst kx)) d.
Proof.
  induction l as [|x l IH]; simpl; intros d H.
  - injection H as <-. auto.
  - inv_bind H. inv_bind H. injection H as <-. simpl.
    destruct (IH _ Ha0) as [-> HF]. auto.
Qed.

Lemma decora_total (key : A -> py Q) : forall l,
  Forall (fun x => exists k, key x = Ok k) l ->
  exists d, decora key l = Ok d.
Proof.
  induction l as [|x l IH]; simpl; intros H; [eauto|].
  inversion H as [|y l' [k Hk] Hl]; subst. rewrite Hk. simpl.
  destruct (IH Hl) as [d ->]. simpl. eauto.
Qed.


Lemma Sorted_map {B : Type} (f : B -> A) (R : A -> A -> Prop) (l : list B) :
  Sorted (fun x y => R (f x) (f y)) l -> Sorted R (map f l).
Proof.
  induction 1 as [|x l Hs IH Hhd]; simpl; constructor; [exact IH|].
  destruct Hhd; simpl; now constructor.
Qed.
End SortedProofs.

Lemma chave_filtrada (l : list Resultado) :
  Forall (fun r => exists k, chave_lucro_mensal r = Ok k) (filter e_viavel l).
Proof.
  apply Forall_forall. intros r Hr. apply filter_In in Hr.
  destruct Hr as [_ Hv]. destruct r; [simpl; eauto | discriminate].
Qed.

(** What [simular_cenarios] returns when it returns: the viable results of
    the loop, rearranged, in ranking order. *)
Lemma simular_cenarios_Ok sis db rs :
  simular_cenarios sis db = Ok rs ->
  exists resultados,
    Forall2 (fun esp r => simular_especie sis esp = Ok r) db resultados
    /\ Permutation (filter e_viavel resultados) rs
    /\ Sorted ordem_ranking rs.
Proof.
  unfold simular_cenarios, sorted_reverse. intros H.
  inv_bind H. inv_bind H. injection H as <-.
  apply laco_especies_Ok in Ha. destruct Ha as [res [-> HF]]. simpl in *.
  exists res. split; [exact HF|].
  apply decora_Ok in Ha0. destruct Ha0 as [Hmap Hkeys]. split.
  - rewrite <- Hmap. apply Permutation_map, ordena_perm.
  - apply Sorted_map.
    assert (Hk : Forall (fun kx => chave_lucro_mensal (snd kx) = Ok (fst kx))
                        (ordena a0)).
    { apply Forall_forall. intros kx Hin.
      rewrite Forall_forall in Hkeys. apply Hkeys.
      eapply Permutation_in; [symmetry; apply ordena_perm | exact Hin]. }
    pose proof (ordena_Sorted a0) as Hs.
    induction Hs as [|x l Hs IH Hhd]; [constructor|].
    inversion Hk as [|? ? Hx Hl]; subst.
    constructor; [now apply IH|].
    destruct Hhd as [|y l' Hxy]; constructor.
    inversion Hl as [|? ? Hy _]; subst.
    destruct x as [kx [cx|? ?]]; simpl in Hx; [|discriminate].
    destruct y as [ky [cy|? ?]]; simpl in Hy; [|discriminate].
    injection Hx as Hx. injection Hy as Hy.
    exists cx, cy. unfold decrescente in Hxy. simpl in *. subst. auto.
Qed.

(** The simulator raises only if the loop body raises on some species: the
    filter leaves nothing the sort key could fail on. *)
Lemma simular_cenarios_total sis db :
  (forall esp, In esp db -> exists r, simular_especie sis esp = Ok r) ->
  exists rs, simular_cenarios sis db = Ok rs.
Proof.
  intros H. unfold simular_cenarios, sorted_reverse.
  destruct (laco_especies_total sis db [] H) as [res ->]. simpl.
  destruct (decora_total chave_lucro_mensal _ (chave_filtrada res)) as [d ->].
  simpl. eauto.
Qed.

(** Every returned element is the viable scenario of a catalogue species. *)
Lemma simular_cenarios_In sis db rs r :
  simular_cenarios sis db = Ok rs -> In r rs ->
  exists c, r = Viavel c /\ In (dados_tec c) db
    /\ simular_especie sis (dados_tec c) = Ok (Viavel c).
Proof.
  intros H Hin. apply simular_cenarios_Ok in H.
  destruct H as [res [HF [Hp _]]].
  apply (Permutation_in _ (Permutation_sym Hp)) in Hin.
  apply filter_In in Hin. destruct Hin as [Hin Hv].
  destruct r as [c|? ?]; [|discriminate]. exists c. split; [reflexivity|].
  clear Hp Hv. induction HF as [|esp r db' res' Hr HF IH]; [contradiction|].
  destruct Hin as [->|Hin].
  - assert (He : dados_tec c = esp).
    { apply simular_especie_Viavel in Hr.
      destruct Hr as [mf [mfin [_ [_ [_ [_ Hc]]]]]].
      apply consolida_Ok in Hc. destruct Hc as [c' [E Hc]].
      injection E as <-. tauto. }
    rewrite He. simpl. auto.
  - destruct (IH Hin) as [H1 H2]. simpl. auto.
Qed.

(** * The stated properties *)

(** ** Ranking *)



(** ** Technology selector *)

(** C9. [SistemaProdutivo.__init__] gives factor 0.10 (EXTENSIVO) exactly
    for selector 1, factor 0.40 (SEMI-INTENSIVO) exactly for selector 2, and
    factor 1.00 (INTENSIVO) for every other selector: 0, negative integers
    and values above 3 included. *)
Theorem C9_technology_selector
    (capital : Q) (qtd : Z) (vol_tanque custo_fixo : Q) (sistema_opcao : Z) :
  let sis := SistemaProdutivo_init capital qtd vol_tanque custo_fixo
                                   sistema_opcao in
  (sistema_opcao = 1%Z <->
     fator_sistema sis == 0.10 /\ nome_sistema sis = "EXTENSIVO"%string)
  /\ (sistema_opcao = 2%Z <->
        fator_sistema sis == 0.40 /\ nome_sistema sis = "SEMI-INTENSIVO"%string)
  /\ (sistema_opcao <> 1%Z /\ sistema_opcao <> 2%Z <->
        fator_sistema sis == 1.00 /\ nome_sistema sis = "INTENSIVO"%string)
  /\ (fator_sistema sis == 0.10 <-> sistema_opcao = 1%Z)
  /\ (fator_sistema sis == 0.40 <-> sistema_opcao = 2%Z)
  /\ volume_total sis == inject_Z qtd * vol_tanque.
Proof.
  unfold SistemaProdutivo_init.
  destruct (sistema_opcao =? 1)%Z eqn:E1;
    [apply Z.eqb_eq in E1 | apply Z.eqb_neq in E1];
    [| destruct (sistema_opcao =? 2)%Z eqn:E2;
       [apply Z.eqb_eq in E2 | apply Z.eqb_neq in E2]];
    simpl;
    repeat split; intros;
    repeat match goal with
           | H : _ /\ _ |- _ => destruct H
           end;
    try reflexivity; try discriminate; try lia; try contradiction;
    try (exfalso; match goal with
                  | H : _ == _ |- _ => vm_compute in H; discriminate
                  end).
Qed.

(** ** The worked scenario *)

(** C8. Concrete scenario: for [especie_A] on [sistema_A] the simulator
    returns one viable scenario with physicalMaxCount 500, financialMaxCount
    1491, stocking quantity 500, bottleneck FISICO, 450 survivors, 450 kg
    sold, total cost 4150, revenue 4500, net profit 350, monthly profit
    58.33 and ROI 8.43 (both to two decimals); the loop body computed on
    binary64 gives the same quantity, bottleneck and amounts. *)
Theorem C8_concrete_scenario :
  volume_total sistema_A == 10
  /\ densidade_real_aplicada sistema_A especie_A == 50
  /\ biomassa_max sistema_A especie_A == 500
  /\ max_fisico sistema_A especie_A = Ok 500%Z
  /\ physicalMaxCount sistema_A especie_A = 500%Z
  /\ custo_fixo_ciclo sistema_A especie_A == 1200
  /\ orcamento_operacional sistema_A especie_A == 8800
  /\ custo_var_unit especie_A == 5.9
  /\ max_financeiro sistema_A especie_A = Ok 1491%Z
  /\ financialMaxCount sistema_A especie_A = 1491%Z
  /\ peixes_finais especie_A 500 = 450%Z
  /\ exists c,
       simular_cenarios sistema_A [especie_A] = Ok [Viavel c]
       /\ status (Viavel c) = VIAVEL
       /\ qtd_povoamento c = 500%Z
       /\ gargalo c = FISICO
       /\ biomassa_kg c == 450
       /\ custo_alevinos c == 250 /\ custo_racao c == 2700
       /\ custo_fixo c == 1200
       /\ custo_total c == 4150
       /\ receita c == 4500
       /\ lucro_liquido c == 350
       /\ lucro_mensal c == 350 / 6
       /\ (58.325 <= lucro_mensal c /\ lucro_mensal c < 58.335)
       /\ roi c == 350 / 4150 * 100
       /\ (8.425 <= roi c /\ roi c < 8.435)
       /\ exists c64,
            Binary64.simular_especie sistema_A especie_A
            = Ok (Binary64.Viavel c64)
            /\ Binary64.qtd_povoamento c64 = qtd_povoamento c
            /\ Binary64.gargalo c64 = gargalo c
            /\ Binary64.biomassa_kg c64 = 450%float
            /\ Binary64.custo_total c64 = 4150%float
            /\ Binary64.receita c64 = 4500%float
            /\ Binary64.lucro_liquido c64 = 350%float
            /\ PrimFloat.leb 58.325 (Binary64.lucro_mensal c64) = true
            /\ PrimFloat.ltb (Binary64.lucro_mensal c64) 58.335 = true
            /\ PrimFloat.leb 8.425 (Binary64.roi c64) = true
            /\ PrimFloat.ltb (Binary64.roi c64) 8.435 = true.
Proof.
  repeat (split; [vm_compute; reflexivity|]).
  exists cenario_A.
  repeat (split; [vm_compute; reflexivity|]).
  split; [split; vm_compute; [intros H; discriminate H | reflexivity]|].
  split; [vm_compute; reflexivity|].
  split; [split; vm_compute; [intros H; discriminate H | reflexivity]|].
  eexists. split; [vm_compute; reflexivity|].
  repeat split; vm_compute; reflexivity.
Qed.

(** ** Integers among the rationals *)

Lemma inject_Z_pos (z : Z) : (0 < z)%Z -> 0 < inject_Z z.
Proof. intros H. change 0 with (inject_Z 0). now rewrite <- Zlt_Qlt. Qed.


(** ** Infeasible species *)

Lemma Forall2_In_esq {A B : Type} (R : A -> B -> Prop) (l : list A)
    (l' : list B) (x : A) :
  Forall2 R l l' -> In x l -> exists y, In y l' /\ R x y.
Proof.
  induction 1 as [|a b l l' Hab HF IH]; intros Hin; [contradiction|].
  destruct Hin as [->|Hin].
  - exists b. simpl. auto.
  - destruct (IH Hin) as [y [Hy HR]]. exists y. simpl. auto.
Qed.

(** C4, as the code has it: the list the simulator returns holds viable
    scenarios only.  A species whose simulation ends infeasible is appended,
    with its reason, to the internal list [resultados], and is left out of
    the returned list by the filter on the status. *)
Theorem C4_infeasible_filtered_out sis db rs :
  simular_cenarios sis db = Ok rs ->
  (forall r, In r rs -> status r = VIAVEL)
  /\ exists resultados,
       laco_especies sis db [] = Ok resultados
       /\ forall esp n m,
            In esp db -> simular_especie sis esp = Ok (Inviavel n m) ->
            In (Inviavel n m) resultados /\ ~ In (Inviavel n m) rs.
Proof.
  intros H.
  assert (Hv : forall r, In r rs -> status r = VIAVEL).
  { intros r Hin. destruct (simular_cenarios_In _ _ _ _ H Hin) as [c [-> _]].
    reflexivity. }
  split; [exact Hv|].
  unfold simular_cenarios in H. inv_bind H. exists a. split; [exact Ha|].
  intros esp n m Hin Hesp.
  apply laco_especies_Ok in Ha. destruct Ha as [res [-> HF]]. simpl.
  split.
  - destruct (Forall2_In_esq _ _ _ _ HF Hin) as [r [Hr Hsim]].
    simpl in Hsim. rewrite Hesp in Hsim. injection Hsim as <-. exact Hr.
  - intros Hin'. apply Hv in Hin'. discriminate.
Qed.

Lemma C4_infeasible_filtered_out_witness :
  (forall r, In r [] -> status r = VIAVEL)
  /\ exists resultados,
       laco_especies sistema_pouco_capital [especie_A] [] = Ok resultados
       /\ forall esp n m,
            In esp [especie_A] ->
            simular_especie sistema_pouco_capital esp = Ok (Inviavel n m) ->
            In (Inviavel n m) resultados /\ ~ In (Inviavel n m) [].
Proof.
  apply (C4_infeasible_filtered_out sistema_pouco_capital [especie_A] []).
  vm_compute. reflexivity.
Defined.

(** C4, as stated, fails: with a capital of 1000 the fixed cost of the cycle
    is not covered, with 1203 not one fish can be paid for; in both cases
    the species ends infeasible and the returned list is empty. *)
Lemma C4_counterexample :
  ~ relata_inviaveis sistema_sem_capital [especie_A]
  /\ ~ relata_inviaveis sistema_pouco_capital [especie_A].
Proof.
  split; intros H.
  - apply (H [] especie_A "A"%string CustoFixoExcedeCapital).
    + vm_compute. reflexivity.
    + simpl. left. reflexivity.
    + vm_compute. reflexivity.
  - apply (H [] especie_A "A"%string CapitalInsuficiente).
    + vm_compute. reflexivity.
    + simpl. left. reflexivity.
    + vm_compute. reflexivity.
Qed.

(** ** Exceptions *)

Lemma Qpos_nonzero (y : Q) : 0 < y -> ~ y == 0.
Proof. intros H E. rewrite E in H. exact (Qlt_irrefl _ H). Qed.

(** With a positive price, a positive unit variable cost and a non-negative
    fixed cost on top of the invariants, the consolidation divides by
    non-zero numbers only. *)
Lemma consolida_total sis esp mf mfin q :
  (0 < q)%Z -> (q <= mf)%Z ->
  0 < valor_mercado_kg esp -> 0 < tempo_ciclo_meses esp ->
  0 < custo_var_unit esp -> 0 <= custo_fixo_mensal sis ->
  exists r, consolida sis esp mf mfin q = Ok r.
Proof.
  intros Hq Hmf Hprice Hciclo Hcvu Hfixo. unfold consolida.
  assert (Hqpos : 0 < inject_Z q) by (apply inject_Z_pos; lia).
  assert (Hmfpos : 0 < inject_Z mf) by (apply inject_Z_pos; lia).
  assert (Htot : 0 < inject_Z q * custo_alevino_un esp
                     + inject_Z q * consumo_racao_kg_por_peixe esp
                       * custo_racao_kg esp
                     + custo_fixo_ciclo sis esp).
  { unfold custo_var_unit, custo_alim_un in Hcvu. unfold custo_fixo_ciclo.
    assert (H1 : 0 < inject_Z q * (custo_alevino_un esp
                   + consumo_racao_kg_por_peixe esp * custo_racao_kg esp))
      by (apply Qmult_lt_0_compat; assumption).
    assert (H2 : 0 <= custo_fixo_mensal sis * tempo_ciclo_meses esp)
      by (apply Qmult_le_0_compat; [assumption | now apply Qlt_le_weak]).
    lra. }
  match goal with
  | |- context [if py_gt ?b 0 then py_div ?x ?b else Ok 0] =>
      destruct (py_gt b 0) eqn:E;
      [apply py_gt_true in E;
       rewrite (py_div_nonzero x b (Qpos_nonzero _ E)) |]
  end; simpl bind;
  rewrite (py_div_nonzero _ _ (Qpos_nonzero _ Hprice)); simpl bind;
  rewrite (py_div_nonzero _ _ (Qpos_nonzero _ Htot)); simpl bind;
  rewrite (py_div_nonzero _ _ (Qpos_nonzero _ Hciclo)); simpl bind;
  match goal with
  | |- context [if py_gt ?b 0 then py_div ?x ?b else Ok 0] =>
      destruct (py_gt b 0) eqn:E';
      [apply py_gt_true in E';
       rewrite (py_div_nonzero x b (Qpos_nonzero _ E')) |]
  end; simpl bind;
  rewrite (py_div_nonzero _ _ (Qpos_nonzero _ Hmfpos)); simpl bind;
  eauto.
Qed.

(** Under those assumptions the loop body returns for every species. *)
Lemma simular_especie_total sis esp :
  invariantes_especie esp -> 0 <= custo_fixo_mensal sis ->
  0 < valor_mercado_kg esp -> 0 < custo_var_unit esp ->
  exists r, simular_especie sis esp = Ok r.
Proof.
  intros [_ [_ [_ [Hini [Hfin Hciclo]]]]] Hfixo Hprice Hcvu.
  unfold simular_especie, max_fisico, max_financeiro.
  assert (Hpf : 0 < peso_final_ideal_kg esp) by lra.
  rewrite (py_div_nonzero _ _ (Qpos_nonzero _ Hpf)). simpl bind.
  destruct (py_le (orcamento_operacional sis esp) 0); [eauto|].
  rewrite (py_div_nonzero _ _ (Qpos_nonzero _ Hcvu)). simpl bind.
  destruct (Z.min _ _ <=? 0)%Z eqn:E; [eauto|].
  apply Z.leb_gt in E. apply consolida_total; auto; lia.
Qed.

(** On exact numbers the simulator returns a list whenever every species
    of the catalogue also has a positive price and a positive unit variable
    cost; on binary64 [int(...)] can still raise [OverflowError]. *)
Lemma simular_cenarios_sem_excecao sis db :
  0 <= custo_fixo_mensal sis ->
  (forall esp, In esp db ->
     invariantes_especie esp /\ 0 < valor_mercado_kg esp
     /\ 0 < custo_var_unit esp) ->
  exists rs, simular_cenarios sis db = Ok rs.
Proof.
  intros Hfixo Hdb. apply simular_cenarios_total. intros esp Hin.
  destruct (Hdb esp Hin) as [Hinv [Hp Hc]].
  now apply simular_especie_total.
Qed.

(** C3, on the code: the invariants allow a price of zero and a unit
    variable cost of zero, and for either the simulator raises
    [ZeroDivisionError], on exact numbers and on binary64 alike: at the
    break-even division by the price, and at the division of the budget by
    the unit variable cost. *)
Theorem C3_zero_denominator_raises :
  invariantes_sistema sistema_A
  /\ invariantes_especie especie_preco_zero
  /\ 0 < custo_var_unit especie_preco_zero
  /\ simular_cenarios sistema_A [especie_preco_zero] = Raise ZeroDivisionError
  /\ Binary64.simular_especie sistema_A especie_preco_zero
     = Raise ZeroDivisionError
  /\ invariantes_especie especie_custo_zero
  /\ 0 < valor_mercado_kg especie_custo_zero
  /\ simular_cenarios sistema_A [especie_custo_zero] = Raise ZeroDivisionError
  /\ Binary64.simular_especie sistema_A especie_custo_zero
     = Raise ZeroDivisionError.
Proof.
  unfold invariantes_sistema, invariantes_especie.
  repeat split; vm_compute; try reflexivity; intros H; discriminate H.
Qed.

(** ** The mix optimizer *)

(** The accumulators after the loop over [model_data]. *)
Lemma laco_mix_Ok (v : VarValues) : forall md a0 a,
  laco_mix v md a0 = Ok a ->
  custo_total_mix a
    == custo_total_mix a0
       + soma (fun m => v (ModelData.nome m) * ModelData.custo_un m)
              (filter (selecionada v) md)
  /\ biomassa_total a
     == biomassa_total a0
        + soma (fun m => v (ModelData.nome m) * ModelData.peso_final m)
               (filter (selecionada v) md)
  /\ max_ciclo a0 <= max_ciclo a
  /\ (forall m, In m (filter (selecionada v) md) ->
        ModelData.tempo_ciclo m <= max_ciclo a)
  /\ (max_ciclo a = max_ciclo a0
      \/ exists m, In m (filter (selecionada v) md)
                   /\ max_ciclo a = ModelData.tempo_ciclo m).
Proof.
  induction md as [|m md IH]; simpl; intros a0 a H.
  - injection H as <-. simpl. repeat split; try lra; try tauto.
  - change (py_gt (v (ModelData.nome m)) 0) with (selecionada v m) in H.
    destruct (selecionada v m) eqn:E.
    + inv_bind H. apply IH in H. simpl in H.
      destruct H as [Hc [Hb [Hle [Hub Hmax]]]].
      assert (Hstep : max_ciclo a0 <= (if py_gt (ModelData.tempo_ciclo m) (max_ciclo a0)
                       then ModelData.tempo_ciclo m else max_ciclo a0)
              /\ ModelData.tempo_ciclo m <= (if py_gt (ModelData.tempo_ciclo m) (max_ciclo a0)
                       then ModelData.tempo_ciclo m else max_ciclo a0)).
      { destruct (py_gt (ModelData.tempo_ciclo m) (max_ciclo a0)) eqn:E2.
        - apply py_gt_true in E2. split; lra.
        - apply py_gt_false in E2. split; lra. }
      destruct Hstep as [Hs1 Hs2].
      simpl. split; [rewrite Hc; ring|]. split; [rewrite Hb; ring|].
      split; [lra|]. split.
      * intros m' [<-|Hin]; [lra | now apply Hub].
      * destruct Hmax as [Hmax|[m' [Hin Hmax]]].
        -- rewrite Hmax.
           destruct (py_gt (ModelData.tempo_ciclo m) (max_ciclo a0));
             [right; exists m; auto | left; reflexivity].
        -- right. exists m'. auto.
    + apply IH in H. exact H.
Qed.

(** What an optimal answer of [otimizar_mix_ideal] is made of. *)
Lemma otimizar_mix_ideal_OTIMO solve sis db meta lt bt mx pb :
  otimizar_mix_ideal solve sis db meta = Ok (OTIMO lt bt mx pb) ->
  exists md a,
    prepara_dados sis db [] = Ok md
    /\ fst (solve (monta_problema sis md meta)) = LpOptimal
    /\ laco_mix (snd (solve (monta_problema sis md meta))) md
                acumulado_inicial = Ok a
    /\ lt = valor (objetivo (monta_problema sis md meta))
                  (snd (solve (monta_problema sis md meta)))
    /\ bt = biomassa_total a /\ mx = mix a
    /\ payback_mix sis lt (custo_total_mix a) (max_ciclo a) = Ok pb.
Proof.
  unfold otimizar_mix_ideal. intros H. inv_bind H. exists a.
  unfold interpreta in H.
  destruct (fst (solve (monta_problema sis a meta))) eqn:Est;
    try discriminate.
  inv_bind H. inv_bind H. injection H as <- <- <- <-.
  exists a0. repeat split; auto.
Qed.

(** The payback of the mix, given a non-negative longest cycle. *)
Lemma payback_mix_Ok sis lt cv mc pb :
  payback_mix sis lt cv mc = Ok pb -> 0 <= mc ->
  (0 < mc /\ 0 < lt / mc ->
     pb = (cv + custo_fixo_mensal sis * mc) / (lt / mc))
  /\ (~ (0 < mc /\ 0 < lt / mc) -> pb = 0).
Proof.
  unfold payback_mix, lucro_mensal_mix. intros H Hmc.
  destruct (py_gt mc 0) eqn:E.
  - apply py_gt_true in E. rewrite (py_div_nonzero _ _ (Qpos_nonzero _ E)) in H.
    simpl in H. destruct (py_gt (lt / mc) 0) eqn:E2.
    + apply py_gt_true in E2. apply py_div_Ok in H. destruct H as [_ ->].
      split; [reflexivity|]. intros Hn. exfalso. apply Hn. auto.
    + apply py_gt_false in E2. injection H as <-. split; [|reflexivity].
      intros [_ Hp]. exfalso. exact (Qlt_not_le _ _ Hp E2).
  - apply py_gt_false in E. simpl in H. injection H as <-.
    split; [|reflexivity]. intros [Hp _]. exfalso. exact (Qlt_not_le _ _ Hp E).
Qed.

(** ** Payback *)

(** C7. Payback sentinel: a viable scenario has
    [payback_meses = custo_total / lucro_mensal] when [lucro_mensal > 0] and
    0 otherwise; the mix has payback (totalVariableCost + custo_fixo_mensal
    * max_cycle) / (lucro_total / max_cycle) when that monthly profit is
    positive and 0 otherwise, where lucro_total is the value of the
    objective and max_cycle the longest cycle among the selected species. *)
Theorem C7_payback_sentinel solve sis db meta :
  (forall rs c,
     simular_cenarios sis db = Ok rs -> In (Viavel c) rs ->
     (0 < lucro_mensal c ->
        payback_meses c = custo_total c / lucro_mensal c)
     /\ (lucro_mensal c <= 0 -> payback_meses c = 0))
  /\ (forall lt bt mx pb,
        otimizar_mix_ideal solve sis db meta = Ok (OTIMO lt bt mx pb) ->
        exists md cv mc,
          prepara_dados sis db [] = Ok md
          /\ lt = valor (objetivo (monta_problema sis md meta))
                        (snd (solve (monta_problema sis md meta)))
          /\ cv == totalVariableCost
                     (snd (solve (monta_problema sis md meta))) md
          /\ e_max_cycle (snd (solve (monta_problema sis md meta))) md mc
          /\ (0 < mc /\ 0 < lt / mc ->
                pb = (cv + custo_fixo_mensal sis * mc) / (lt / mc))
          /\ (~ (0 < mc /\ 0 < lt / mc) -> pb = 0)).
Proof.
  split.
  - intros rs c H Hin.
    destruct (simular_cenarios_In _ _ _ _ H Hin) as [c' [E [_ Hc]]].
    injection E as <-.
    apply simular_especie_Viavel in Hc.
    destruct Hc as [mf [mfin [_ [_ [_ [_ Hc]]]]]].
    apply consolida_Ok in Hc. destruct Hc as [c' [E Hc]].
    injection E as <-.
    assert (Hpb : payback_meses c =
                  (if py_gt (lucro_mensal c) 0
                   then custo_total c / lucro_mensal c else 0)) by tauto.
    rewrite Hpb. split; intros Hl.
    + apply py_gt_true in Hl. rewrite Hl. reflexivity.
    + apply py_gt_false in Hl. rewrite Hl. reflexivity.
  - intros lt bt mx pb H. apply otimizar_mix_ideal_OTIMO in H.
    destruct H as [md [a [Hmd [_ [Hlaco [Hlt [_ [_ Hpb]]]]]]]].
    exists md, (custo_total_mix a), (max_ciclo a).
    apply laco_mix_Ok in Hlaco.
    destruct Hlaco as [Hc [_ [Hle [Hub Hmax]]]]. simpl in Hc, Hle, Hmax.
    split; [exact Hmd|]. split; [exact Hlt|].
    split; [rewrite Hc; unfold totalVariableCost; ring|].
    split; [unfold e_max_cycle; auto|].
    apply payback_mix_Ok; assumption.
Qed.

Lemma C7_payback_sentinel_witness :
  ((0 < lucro_mensal cenario_A ->
      payback_meses cenario_A = custo_total cenario_A / lucro_mensal cenario_A)
   /\ (lucro_mensal cenario_A <= 0 -> payback_meses cenario_A = 0))
  /\ ((0 < lucro_mensal cenario_D ->
         payback_meses cenario_D
         = custo_total cenario_D / lucro_mensal cenario_D)
      /\ (lucro_mensal cenario_D <= 0 -> payback_meses cenario_D = 0))
  /\ exists md cv mc,
       prepara_dados sistema_A [especie_D; especie_A] [] = Ok md
       /\ 894.00000000000000
          = valor (objetivo (monta_problema sistema_A md 100))
                  (snd (solver_otimo (monta_problema sistema_A md 100)))
       /\ cv == totalVariableCost
                  (snd (solver_otimo (monta_problema sistema_A md 100))) md
       /\ e_max_cycle (snd (solver_otimo (monta_problema sistema_A md 100)))
                      md mc
       /\ (0 < mc /\ 0 < 894.00000000000000 / mc ->
             payback_AD
             = (cv + custo_fixo_mensal sistema_A * mc)
               / (894.00000000000000 / mc))
       /\ (~ (0 < mc /\ 0 < 894.00000000000000 / mc) -> payback_AD = 0).
Proof.
  destruct (C7_payback_sentinel solver_otimo sistema_A
              [especie_D; especie_A] 100) as [Hsim Hmix].
  split; [|split].
  - apply (Hsim [Viavel cenario_A; Viavel cenario_D]).
    + vm_compute. reflexivity.
    + simpl. auto.
  - apply (Hsim [Viavel cenario_A; Viavel cenario_D]).
    + vm_compute. reflexivity.
    + simpl. auto.
  - apply (Hmix _ 400 mix_AD). vm_compute. reflexivity.
Defined.

(** * Further properties on exact numbers *)

Lemma py_div_zero (x y : Q) : y == 0 -> py_div x y = Raise ZeroDivisionError.
Proof.
  intros Hy. unfold py_div. apply Qeq_bool_iff in Hy. now rewrite Hy.
Qed.

Lemma Qnonzero_dec (y : Q) : {y == 0} + {~ y == 0}.
Proof. apply Qeq_dec. Qed.

Lemma max_fisico_teto sis esp :
  ~ peso_final_ideal_kg esp == 0 ->
  max_fisico sis esp = Ok (teto_fisico sis esp).
Proof.
  intros H. unfold max_fisico. now rewrite (py_div_nonzero _ _ H).
Qed.

Lemma max_financeiro_teto sis esp :
  ~ custo_var_unit esp == 0 ->
  max_financeiro sis esp = Ok (teto_financeiro sis esp).
Proof.
  intros H. unfold max_financeiro. now rewrite (py_div_nonzero _ _ H).
Qed.

(** The loop body, case by case. *)
Lemma simular_especie_casos sis esp :
  (peso_final_ideal_kg esp == 0
   /\ simular_especie sis esp = Raise ZeroDivisionError)
  \/ (~ peso_final_ideal_kg esp == 0 /\
      ((orcamento_operacional sis esp <= 0
        /\ simular_especie sis esp
           = Ok (Inviavel (nome esp) CustoFixoExcedeCapital))
       \/ (0 < orcamento_operacional sis esp /\
           ((custo_var_unit esp == 0
             /\ simular_especie sis esp = Raise ZeroDivisionError)
            \/ (~ custo_var_unit esp == 0 /\
                (((qtd_real sis esp <= 0)%Z
                  /\ simular_especie sis esp
                     = Ok (Inviavel (nome esp) CapitalInsuficiente))
                 \/ ((0 < qtd_real sis esp)%Z
                     /\ simular_especie sis esp
                        = consolida sis esp (teto_fisico sis esp)
                            (teto_financeiro sis esp) (qtd_real sis esp)))))))).
Proof.
  unfold simular_especie.
  destruct (Qnonzero_dec (peso_final_ideal_kg esp)) as [Hp|Hp].
  - left. split; [exact Hp|]. unfold max_fisico.
    now rewrite (py_div_zero _ _ Hp).
  - right. split; [exact Hp|]. rewrite (max_fisico_teto _ _ Hp). simpl bind.
    destruct (py_le (orcamento_operacional sis esp) 0) eqn:Eo.
    + left. apply py_le_true in Eo. auto.
    + right. apply py_le_false in Eo. split; [exact Eo|].
      destruct (Qnonzero_dec (custo_var_unit esp)) as [Hc|Hc].
      * left. split; [exact Hc|]. unfold max_financeiro.
        now rewrite (py_div_zero _ _ Hc).
      * right. split; [exact Hc|].
        rewrite (max_financeiro_teto _ _ Hc). simpl bind.
        fold (qtd_real sis esp).
        destruct (qtd_real sis esp <=? 0)%Z eqn:Eq.
        -- left. apply Z.leb_le in Eq. auto.
        -- right. apply Z.leb_gt in Eq. auto.
Qed.

(** All the fields of a consolidated scenario. *)
Lemma consolida_campos sis esp mf mfin q c :
  consolida sis esp mf mfin q = Ok (Viavel c) ->
  dados_tec c = esp
  /\ qtd_povoamento c = q
  /\ biomassa_kg c = inject_Z (peixes_finais esp q) * peso_final_ideal_kg esp
  /\ receita c = biomassa_kg c * valor_mercado_kg esp
  /\ lucro_liquido c = receita c - custo_total c
  /\ custo_total c = custo_total_de sis esp q
  /\ ~ valor_mercado_kg esp == 0
  /\ ~ custo_total c == 0
  /\ ~ tempo_ciclo_meses esp == 0
  /\ ponto_equilibrio c = custo_total c / valor_mercado_kg esp
  /\ roi c = lucro_liquido c / custo_total c * 100
  /\ lucro_mensal c = lucro_liquido c / tempo_ciclo_meses esp
  /\ custo_kg_produzido c =
       (if py_gt (biomassa_kg c) 0
        then custo_total c / biomassa_kg c else 0)
  /\ racao_ton c = inject_Z q * consumo_racao_kg_por_peixe esp / 1000
  /\ payback_meses c =
       (if py_gt (lucro_mensal c) 0
        then custo_total c / lucro_mensal c else 0)
  /\ ocupacao c = inject_Z q / inject_Z mf * 100
  /\ gargalo c = (if (mfin <? mf)%Z then FINANCEIRO else FISICO).
Proof.
  unfold consolida. intros H.
  inv_bind H. inv_bind H. inv_bind H. inv_bind H. inv_bind H. inv_bind H.
  injection H as <-. simpl.
  apply py_div_Ok in Ha0. destruct Ha0 as [Hprice ->].
  apply py_div_Ok in Ha1. destruct Ha1 as [Htot ->].
  apply py_div_Ok in Ha2. destruct Ha2 as [Hciclo ->].
  apply py_div_Ok in Ha4. destruct Ha4 as [_ ->].
  assert (Ea : a = (if py_gt (inject_Z (peixes_finais esp q)
                                * peso_final_ideal_kg esp) 0
                    then custo_total_de sis esp q
                         / (inject_Z (peixes_finais esp q)
                            * peso_final_ideal_kg esp)
                    else 0)).
  { unfold custo_total_de.
    match type of Ha with
    | (if ?b then _ else _) = _ => destruct b
    end; [apply py_div_Ok in Ha; tauto | congruence]. }
  assert (Ea3 : a3 = (if py_gt ((inject_Z (peixes_finais esp q)
                                  * peso_final_ideal_kg esp
                                  * valor_mercado_kg esp
                                  - custo_total_de sis esp q)
                                 / tempo_ciclo_meses esp) 0
                      then custo_total_de sis esp q
                           / ((inject_Z (peixes_finais esp q)
                               * peso_final_ideal_kg esp
                               * valor_mercado_kg esp
                               - custo_total_de sis esp q)
                              / tempo_ciclo_meses esp)
                      else 0)).
  { unfold custo_total_de.
    match type of Ha3 with
    | (if ?b then _ else _) = _ => destruct b
    end; [apply py_div_Ok in Ha3; tauto | congruence]. }
  subst a a3. repeat split; auto.
Qed.

(** A scenario of the ranking is the consolidation of its species at the
    quantity the two ceilings give. *)
Lemma ranking_consolida sis db rs c :
  simular_cenarios sis db = Ok rs -> In (Viavel c) rs ->
  In (dados_tec c) db
  /\ ~ peso_final_ideal_kg (dados_tec c) == 0
  /\ ~ custo_var_unit (dados_tec c) == 0
  /\ 0 < orcamento_operacional sis (dados_tec c)
  /\ (0 < qtd_real sis (dados_tec c))%Z
  /\ consolida sis (dados_tec c) (teto_fisico sis (dados_tec c))
       (teto_financeiro sis (dados_tec c)) (qtd_real sis (dados_tec c))
     = Ok (Viavel c).
Proof.
  intros H Hin.
  destruct (simular_cenarios_In _ _ _ _ H Hin) as [c' [E [Hdb Hc]]].
  injection E as <-. split; [exact Hdb|].
  destruct (simular_especie_casos sis (dados_tec c))
    as [[_ Hr]|[Hp [[_ Hr]|[Ho [[_ Hr]|[Hcv [[_ Hr]|[Hq Hr]]]]]]]];
    rewrite Hr in Hc; try discriminate.
  auto.
Qed.

(** ** Order of the ranking *)




(** ** Indicators of a viable scenario *)

(** Names for the conjuncts of [consolida_campos]. *)
Ltac campos H :=
  destruct H as (Hdados & Hqtd & Hbio & Hrec & Hluc & Htot & Hprice & Htotnz
                 & Hciclo & Hpe & Hroi & Hlm & Hkg & Hracao & Hpb & Hoc
                 & Hgarg).





(** X9. Bottleneck and occupancy: a ranked scenario has bottleneck FISICO
    exactly when the tanks are full (occupancy 100), and FINANCEIRO exactly
    when occupancy is below 100. *)
Theorem X9_bottleneck_and_occupancy sis db rs c :
  simular_cenarios sis db = Ok rs -> In (Viavel c) rs ->
  (gargalo c = FISICO <-> ocupacao c == 100)
  /\ (gargalo c = FINANCEIRO <-> ocupacao c < 100).
Proof.
  intros H Hin.
  destruct (ranking_consolida _ _ _ _ H Hin) as [_ [_ [_ [_ [Hq Hc]]]]].
  apply consolida_campos in Hc.
  campos Hc.
  set (mf := teto_fisico sis (dados_tec c)) in *.
  set (mfin := teto_financeiro sis (dados_tec c)) in *.
  unfold qtd_real in Hq, Hoc. fold mf mfin in Hq, Hoc.
  assert (Hmf : 0 < inject_Z mf) by (apply inject_Z_pos; lia).
  rewrite Hgarg, Hoc. destruct (mfin <? mf)%Z eqn:E.
  - apply Z.ltb_lt in E. rewrite Z.min_r by lia.
    assert (Hlt : inject_Z mfin / inject_Z mf * 100 < 100).
    { setoid_replace 100 with (1 * 100) at 2 by reflexivity.
      apply Qmult_lt_compat_r; [reflexivity|].
      apply Qlt_shift_div_r; [exact Hmf|]. rewrite Qmult_1_l.
      rewrite <- Zlt_Qlt. exact E. }
    split; split; intros; try discriminate; auto.
    exfalso. rewrite H0 in Hlt. exact (Qlt_irrefl _ Hlt).
  - apply Z.ltb_ge in E. rewrite Z.min_l by lia.
    assert (Heq : inject_Z mf / inject_Z mf * 100 == 100).
    { field. now apply Qpos_nonzero. }
    split; split; intros; try discriminate; auto.
    exfalso. rewrite Heq in H0. exact (Qlt_irrefl _ H0).
Qed.

Lemma X9_bottleneck_and_occupancy_witness :
  (gargalo cenario_A = FISICO <-> ocupacao cenario_A == 100)
  /\ (gargalo cenario_A = FINANCEIRO <-> ocupacao cenario_A < 100).
Proof.
  apply (X9_bottleneck_and_occupancy sistema_A [especie_A] [Viavel cenario_A]).
  - vm_compute. reflexivity.
  - simpl. left. reflexivity.
Defined.

(** ** Preparation of [model_data] *)




(** ** Mortality *)

(** X16. The optimizer does not look at mortality: replacing the mortality
    rates of the catalogue by any others leaves its answer unchanged, for
    every solver; the biomass and profit of a mix count every stocked fish
    at its final weight. *)
Theorem X16_optimizer_ignores_mortality solve sis db meta (taxa : Especie -> Q) :
  otimizar_mix_ideal solve sis
    (map (fun esp => com_mortalidade esp (taxa esp)) db) meta
  = otimizar_mix_ideal solve sis db meta.
Proof.
  unfold otimizar_mix_ideal.
  assert (E : forall acc,
            prepara_dados sis
              (map (fun esp => com_mortalidade esp (taxa esp)) db) acc
            = prepara_dados sis db acc).
  { induction db as [|esp db IH]; intros acc; [reflexivity|]. simpl.
    change (prepara_especie sis (com_mortalidade esp (taxa esp)))
      with (prepara_especie sis esp).
    destruct (prepara_especie sis esp) as [[m|]|e]; simpl; auto. }
  now rewrite E.
Qed.


(** ** [fmt_moeda] and [fmt_num] *)

Lemma tres_trocas (s : string) :
  contem "X" s = false ->
  str_replace "X" "." (str_replace "." "," (str_replace "," "X" s))
  = mapa troca_separador s.
Proof.
  induction s as [|c s IH]; simpl; intros H; [reflexivity|].
  apply orb_false_iff in H. destruct H as [Hc Hs].
  rewrite (IH Hs). f_equal. unfold troca_separador.
  destruct (Ascii.eqb c ",") eqn:E1; cbn iota; [reflexivity|].
  destruct (Ascii.eqb c ".") eqn:E2; cbn iota; [reflexivity|].
  now rewrite Hc.
Qed.

Lemma mapa_troca_involutiva (s : string) :
  mapa troca_separador (mapa troca_separador s) = s.
Proof.
  induction s as [|c s IH]; simpl; [reflexivity|]. rewrite IH. f_equal.
  unfold troca_separador.
  destruct (Ascii.eqb c ",") eqn:E1.
  - apply Ascii.eqb_eq in E1. subst c. reflexivity.
  - destruct (Ascii.eqb c ".") eqn:E2.
    + apply Ascii.eqb_eq in E2. subst c. reflexivity.
    + now rewrite E1, E2.
Qed.

Lemma mapa_length (f : ascii -> ascii) (s : string) :
  String.length (mapa f s) = String.length s.
Proof. induction s as [|c s IH]; simpl; congruence. Qed.


(** ** Break-even *)



(** ** Simulator and optimizer on a full tank *)



(** ** Separators of the formatted numbers *)

Lemma str_replace_length (a b : ascii) (s : string) :
  String.length (str_replace a b s) = String.length s.
Proof. induction s as [|c s IH]; simpl; congruence. Qed.

Lemma str_replace_sem (a b : ascii) (s : string) :
  a <> b -> contem a (str_replace a b s) = false.
Proof.
  intros Hab. induction s as [|c s IH]; simpl; [reflexivity|].
  rewrite IH, orb_false_r.
  destruct (Ascii.eqb c a) eqn:E.
  - apply Ascii.eqb_neq. congruence.
  - exact E.
Qed.

Lemma uma_troca (s : string) :
  contem "." s = false ->
  str_replace "," "." s = mapa troca_separador s.
Proof.
  induction s as [|c s IH]; simpl; intros H; [reflexivity|].
  apply orb_false_iff in H. destruct H as [Hc Hs].
  rewrite (IH Hs). f_equal. unfold troca_separador.
  destruct (Ascii.eqb c ","); [reflexivity|]. now rewrite Hc.
Qed.

(** X21. The three replacements of [fmt_moeda] exchange the decimal point
    and the thousands comma of the formatted number and change nothing
    else, provided the formatted number holds no "X": the result is "R$ "
    followed by the number with the separators exchanged, three characters
    longer, and exchanging again gives the formatted number back.  The
    single replacement of [fmt_num] turns every comma into a point and
    keeps the length: the result holds no comma, and it is the formatted
    number with the separators exchanged when that number holds no
    point. *)
Theorem X21_separators_exchanged
    (Numero : Type) (formata_2f formata_0f : Numero -> string) (valor : Numero) :
  contem "X" (formata_2f valor) = false ->
  fmt_moeda Numero formata_2f valor
  = ("R$ " ++ mapa troca_separador (formata_2f valor))%string
  /\ String.length (fmt_moeda Numero formata_2f valor)
     = (3 + String.length (formata_2f valor))%nat
  /\ mapa troca_separador (fmt_moeda Numero formata_2f valor)
     = ("R$ " ++ formata_2f valor)%string
  /\ fmt_num Numero formata_0f valor = str_replace "," "." (formata_0f valor)
  /\ contem "," (fmt_num Numero formata_0f valor) = false
  /\ String.length (fmt_num Numero formata_0f valor)
     = String.length (formata_0f valor)
  /\ (contem "." (formata_0f valor) = false ->
      fmt_num Numero formata_0f valor
      = mapa troca_separador (formata_0f valor)).
Proof.
  intros H2. unfold fmt_moeda, fmt_num.
  rewrite (tres_trocas ("R$ " ++ formata_2f valor)) by (simpl; exact H2).
  change (mapa troca_separador ("R$ " ++ formata_2f valor))
    with ("R$ " ++ mapa troca_separador (formata_2f valor))%string.
  split; [reflexivity|]. split; [simpl; now rewrite mapa_length|].
  split; [simpl; now rewrite mapa_troca_involutiva|].
  split; [reflexivity|].
  split; [apply str_replace_sem; discriminate|].
  split; [apply str_replace_length | apply uma_troca].
Qed.

Lemma X21_separators_exchanged_witness :
  fmt_moeda Q (fun _ => "1,234,567.50"%string) 1234567.5
  = "R$ 1.234.567,50"%string
  /\ fmt_num Q (fun _ => "1,234,568"%string) 1234567.5 = "1.234.568"%string.
Proof.
  destruct (X21_separators_exchanged Q (fun _ => "1,234,567.50"%string)
              (fun _ => "1,234,568"%string) 1234567.5 eq_refl)
    as (H1 & _ & _ & _ & _ & _ & H2).
  split; [exact H1 | exact (H2 eq_refl)].
Defined.
(** * The program on binary64: proofs *)

Lemma bind_Raise {A B : Type} (c : py A) (k : A -> py B) (e : Exc) :
  bind c k = Raise e <->
  c = Raise e \/ exists a, c = Ok a /\ k a = Raise e.
Proof.
  destruct c as [a|e']; simpl; split.
  - intros H. right. eauto.
  - intros [H|[a' [H H']]]; [discriminate|]. injection H as ->. exact H'.
  - intros H. left. congruence.
  - intros [H|[a' [H _]]]; [congruence | discriminate].
Qed.

Lemma bind_assoc {A B C : Type} (c : py A) (f : A -> py B) (g : B -> py C) :
  bind (bind c f) g = bind c (fun a => bind (f a) g).
Proof. destruct c; reflexivity. Qed.

Section Float64Proofs.
Import Binary64 Float64.

(** ** The loop body, step by step *)

Lemma simular_especie_passos64 sis esp :
  simular_especie sis esp =
  (mf <- max_fisico sis esp ;;
   if PrimFloat.leb (orcamento_operacional sis esp) 0
   then Ok (Inviavel (nome esp) CustoFixoExcedeCapital)
   else
     mfin <- max_financeiro sis esp ;;
     if (Z.min mf mfin <=? 0)%Z
     then Ok (Inviavel (nome esp) CapitalInsuficiente)
     else consolida sis esp mf mfin (Z.min mf mfin)).
Proof.
  cbv beta zeta delta
    [simular_especie max_fisico max_financeiro consolida biomassa_max
     volume_total densidade_real_aplicada orcamento_operacional
     custo_fixo_ciclo custo_var_unit custo_alim_un
     consumo_racao_kg_por_peixe ganho_peso].
  rewrite bind_assoc.
  match goal with |- bind ?c _ = _ => destruct c; [cbn [bind]|reflexivity] end.
  match goal with |- bind ?c _ = _ => destruct c; [cbn [bind]|reflexivity] end.
  match goal with
  | |- (if ?b then _ else _) = _ => destruct b; [reflexivity|]
  end.
  rewrite bind_assoc.
  match goal with |- bind ?c _ = _ => destruct c; [cbn [bind]|reflexivity] end.
  match goal with |- bind ?c _ = _ => destruct c; [cbn [bind]|reflexivity] end.
  match goal with |- (if ?b then _ else _) = _ => destruct b end;
    reflexivity.
Qed.

(** What a returned result says of the run that produced it. *)
Lemma simular_especie_casos64 sis esp r :
  simular_especie sis esp = Ok r ->
  exists mf, max_fisico sis esp = Ok mf /\
    ((PrimFloat.leb (orcamento_operacional sis esp) 0 = true
      /\ r = Inviavel (nome esp) CustoFixoExcedeCapital)
     \/ (PrimFloat.leb (orcamento_operacional sis esp) 0 = false
         /\ exists mfin, max_financeiro sis esp = Ok mfin /\
              (((Z.min mf mfin <= 0)%Z
                /\ r = Inviavel (nome esp) CapitalInsuficiente)
               \/ ((0 < Z.min mf mfin)%Z
                   /\ consolida sis esp mf mfin (Z.min mf mfin) = Ok r)))).
Proof.
  rewrite simular_especie_passos64. intros H.
  apply bind_Ok in H. destruct H as [mf [Hmf H]].
  exists mf. split; [exact Hmf|].
  destruct (PrimFloat.leb (orcamento_operacional sis esp) 0).
  - left. split; [reflexivity|]. congruence.
  - right. split; [reflexivity|].
    apply bind_Ok in H. destruct H as [mfin [Hmfin H]].
    exists mfin. split; [exact Hmfin|].
    destruct (Z.min mf mfin <=? 0)%Z eqn:E.
    + left. apply Z.leb_le in E. split; [exact E | congruence].
    + right. apply Z.leb_gt in E. split; [exact E | exact H].
Qed.

Lemma py_div_Ok64 (x y q : float) :
  py_div x y = Ok q -> PrimFloat.eqb y 0 = false /\ q = PrimFloat.div x y.
Proof.
  unfold py_div. destruct (PrimFloat.eqb y 0); intros H; [discriminate|].
  injection H as <-. auto.
Qed.

Lemma py_div_Raise64 (x y : float) (e : Exc) :
  py_div x y = Raise e -> PrimFloat.eqb y 0 = true /\ e = ZeroDivisionError.
Proof.
  unfold py_div. destruct (PrimFloat.eqb y 0); intros H; [|discriminate].
  injection H as <-. auto.
Qed.

Lemma py_int_Raise64 (x : float) (e : Exc) :
  py_int x = Raise e -> e = OverflowError \/ e = ValueError.
Proof.
  unfold py_int. destruct (Prim2SF x); intros H; try discriminate;
    injection H as <-; auto.
Qed.

(** The fields of a consolidated scenario. *)
Lemma consolida_campos64 sis esp mf mfin q r :
  consolida sis esp mf mfin q = Ok r ->
  exists c, r = Viavel c
    /\ especie c = nome esp
    /\ dados_tec c = esp
    /\ qtd_povoamento c = q
    /\ gargalo c = (if (mfin <? mf)%Z then FINANCEIRO else FISICO)
    /\ custo_alevinos c = PrimFloat.mul (of_int q) (of_Q (custo_alevino_un esp))
    /\ custo_racao c =
         PrimFloat.mul
           (PrimFloat.mul (of_int q) (consumo_racao_kg_por_peixe esp))
           (of_Q (custo_racao_kg esp))
    /\ custo_fixo c = custo_fixo_ciclo sis esp
    /\ custo_total c =
         PrimFloat.add (PrimFloat.add (custo_alevinos c) (custo_racao c))
                       (custo_fixo c)
    /\ PrimFloat.eqb (of_int mf) 0 = false
    /\ ocupacao c =
         PrimFloat.mul (PrimFloat.div (of_int q) (of_int mf)) 100.
Proof.
  unfold consolida. intros H.
  apply bind_Ok in H. destruct H as [pf [_ H]].
  apply bind_Ok in H. destruct H as [ckg [_ H]].
  apply bind_Ok in H. destruct H as [pe [_ H]].
  apply bind_Ok in H. destruct H as [roi_f [_ H]].
  apply bind_Ok in H. destruct H as [lm [_ H]].
  apply bind_Ok in H. destruct H as [pb [_ H]].
  apply bind_Ok in H. destruct H as [oc [Hoc H]].
  apply py_div_Ok64 in Hoc. destruct Hoc as [Hz ->].
  injection H as <-. eexists. split; [reflexivity|].
  cbn. repeat split; auto.
Qed.

Lemma consolida_Raise64 sis esp mf mfin q e :
  consolida sis esp mf mfin q = Raise e ->
  e = ZeroDivisionError \/ e = OverflowError \/ e = ValueError.
Proof.
  unfold consolida. intros H.
  repeat (apply bind_Raise in H;
          destruct H as [H|[? [_ H]]];
          [ first [ apply py_int_Raise64 in H; tauto
                  | apply py_div_Raise64 in H; tauto
                  | match type of H with
                    | (if ?b then _ else _) = _ => destruct b
                    end;
                    [apply py_div_Raise64 in H; tauto | discriminate] ] | ]).
  discriminate.
Qed.

Lemma simular_especie_Viavel64 sis esp c :
  simular_especie sis esp = Ok (Viavel c) ->
  exists mf mfin,
    max_fisico sis esp = Ok mf
    /\ max_financeiro sis esp = Ok mfin
    /\ PrimFloat.leb (orcamento_operacional sis esp) 0 = false
    /\ (0 < Z.min mf mfin)%Z
    /\ consolida sis esp mf mfin (Z.min mf mfin) = Ok (Viavel c).
Proof.
  intros H. apply simular_especie_casos64 in H.
  destruct H as [mf [Hmf [[_ H]|[Horc [mfin [Hmfin [[_ H]|[Hpos H]]]]]]]];
    try discriminate.
  exists mf, mfin. auto.
Qed.

Lemma simular_especie_dados64 sis esp c :
  simular_especie sis esp = Ok (Viavel c) -> dados_tec c = esp.
Proof.
  intros H. apply simular_especie_Viavel64 in H.
  destruct H as (mf & mfin & _ & _ & _ & _ & H).
  apply consolida_campos64 in H. destruct H as (c' & Hc & _ & Hd & _).
  injection Hc as ->. exact Hd.
Qed.

Lemma simular_especie_Raise64 sis esp e :
  simular_especie sis esp = Raise e ->
  e = ZeroDivisionError \/ e = OverflowError \/ e = ValueError.
Proof.
  rewrite simular_especie_passos64. intros H.
  apply bind_Raise in H. destruct H as [H|[mf [_ H]]].
  - unfold max_fisico in H. apply bind_Raise in H.
    destruct H as [H|[? [_ H]]];
      [apply py_div_Raise64 in H | apply py_int_Raise64 in H]; tauto.
  - destruct (PrimFloat.leb _ 0); [discriminate|].
    apply bind_Raise in H. destruct H as [H|[mfin [_ H]]].
    + unfold max_financeiro in H. apply bind_Raise in H.
      destruct H as [H|[? [_ H]]];
        [apply py_div_Raise64 in H | apply py_int_Raise64 in H]; tauto.
    + destruct (Z.min mf mfin <=? 0)%Z; [discriminate|].
      now apply consolida_Raise64 in H.
Qed.

(** ** The loop over the catalogue *)

Lemma laco_especies_Ok64 sis db : forall acc rs,
  laco_especies sis db acc = Ok rs <->
  exists rs', rs = acc ++ rs'
    /\ Forall2 (fun esp r => simular_especie sis esp = Ok r) db rs'.
Proof.
  induction db as [|esp db IH]; simpl; intros acc rs; split.
  - intros H. injection H as <-. exists []. rewrite app_nil_r. auto.
  - intros [rs' [-> HF]]. inversion HF. now rewrite app_nil_r.
  - intros H. apply bind_Ok in H. destruct H as [r [Hr H]].
    apply IH in H. destruct H as [rs' [-> HF]].
    exists (r :: rs'). rewrite <- app_assoc. simpl. auto.
  - intros [rs' [-> HF]]. inversion HF as [|? r ? rs'' Hr HF']; subst.
    rewrite Hr. simpl. apply IH. exists rs''.
    rewrite <- app_assoc. simpl. auto.
Qed.

Lemma laco_especies_Raise64 sis db : forall acc e,
  laco_especies sis db acc = Raise e <->
  exists antes esp depois,
    db = antes ++ esp :: depois
    /\ Forall (fun x => exists r, simular_especie sis x = Ok r) antes
    /\ simular_especie sis esp = Raise e.
Proof.
  induction db as [|esp db IH]; simpl; intros acc e; split.
  - discriminate.
  - intros (antes & x & depois & H & _). destruct antes; discriminate.
  - intros H. apply bind_Raise in H. destruct H as [H|[r [Hr H]]].
    + exists [], esp, db. auto.
    + apply IH in H. destruct H as (antes & x & depois & -> & HF & Hx).
      exists (esp :: antes), x, depois. repeat split; eauto.
  - intros (antes & x & depois & H & HF & Hx).
    destruct antes as [|y antes]; simpl in H; injection H as -> ->.
    + rewrite Hx. reflexivity.
    + inversion HF as [|? ? [r Hr] HF']; subst. rewrite Hr. simpl.
      apply IH. exists antes, x, depois. auto.
Qed.

(** ** The descending sort *)

Lemma insere_perm64 {A : Type} (x : float * A) (l : list (float * A)) :
  Permutation (insere x l) (x :: l).
Proof.
  induction l as [|y l IH]; simpl; [reflexivity|].
  destruct (PrimFloat.ltb (fst x) (fst y)); [|reflexivity].
  rewrite IH. apply perm_swap.
Qed.

Lemma ordena_perm64 {A : Type} (l : list (float * A)) :
  Permutation (ordena l) l.
Proof.
  induction l as [|x l IH]; simpl; [reflexivity|].
  rewrite insere_perm64. now constructor.
Qed.

Lemma decora_Ok64 {A : Type} (key : A -> py float) (l : list A) :
  forall d, decora key l = Ok d ->
  map snd d = l /\ Forall (fun kx => key (snd kx) = Ok (fst kx)) d.
Proof.
  induction l as [|x l IH]; simpl; intros d H.
  - injection H as <-. auto.
  - apply bind_Ok in H. destruct H as [k [Hk H]].
    apply bind_Ok in H. destruct H as [r [Hr H]].
    injection H as <-. destruct (IH _ Hr) as [Hm HF].
    simpl. rewrite Hm. split; [reflexivity|]. constructor; auto.
Qed.

Lemma decora_total64 {A : Type} (key : A -> py float) (l : list A) :
  Forall (fun x => exists k, key x = Ok k) l ->
  exists d, decora key l = Ok d.
Proof.
  induction l as [|x l IH]; simpl; intros H; [eauto|].
  inversion H as [|? ? [k Hk] Hl]; subst. rewrite Hk. simpl.
  destruct (IH Hl) as [d ->]. simpl. eauto.
Qed.

Lemma chave_filtrada64 (l : list Resultado) :
  Forall (fun r => exists k, chave_lucro_mensal r = Ok k) (filter e_viavel l).
Proof.
  apply Forall_forall. intros r Hr. apply filter_In in Hr.
  destruct Hr as [_ Hr]. destruct r; [simpl; eauto | discriminate].
Qed.

(** The sort of line 170 does not raise: every result that passed the
    filter has the key. *)
Lemma sorted_reverse_total64 (l : list Resultado) :
  exists d, decora chave_lucro_mensal (filter e_viavel l) = Ok d
    /\ sorted_reverse (filter e_viavel l) chave_lucro_mensal
       = Ok (map snd (ordena d)).
Proof.
  destruct (decora_total64 chave_lucro_mensal _ (chave_filtrada64 l))
    as [d Hd].
  exists d. split; [exact Hd|]. unfold sorted_reverse. now rewrite Hd.
Qed.

Lemma simular_cenarios_Ok64 sis db ranking :
  simular_cenarios sis db = Ok ranking ->
  exists resultados d,
    Forall2 (fun esp r => simular_especie sis esp = Ok r) db resultados
    /\ decora chave_lucro_mensal (filter e_viavel resultados) = Ok d
    /\ ranking = map snd (ordena d)
    /\ Permutation ranking (filter e_viavel resultados).
Proof.
  unfold simular_cenarios. intros H.
  apply bind_Ok in H. destruct H as [res [Hres H]].
  apply laco_especies_Ok64 in Hres. destruct Hres as [res' [-> HF]].
  simpl in H.
  destruct (sorted_reverse_total64 res') as [d [Hd Hs]].
  rewrite Hs in H. injection H as <-.
  exists res', d. repeat split; auto.
  apply decora_Ok64 in Hd. destruct Hd as [Hm _].
  rewrite <- Hm. apply Permutation_map, ordena_perm64.
Qed.

Lemma simular_cenarios_Raise64 sis db e :
  simular_cenarios sis db = Raise e <-> laco_especies sis db [] = Raise e.
Proof.
  unfold simular_cenarios. split; intros H.
  - apply bind_Raise in H. destruct H as [H|[res [_ H]]]; [exact H|].
    destruct (sorted_reverse_total64 res) as [d [_ Hs]]. congruence.
  - rewrite H. reflexivity.
Qed.

Lemma Forall2_In_esq64 {A B : Type} (R : A -> B -> Prop) (l : list A)
    (l' : list B) (y : B) :
  Forall2 R l l' -> In y l' -> exists x, In x l /\ R x y.
Proof.
  induction 1 as [|a b l l' Hab HF IH]; simpl; [tauto|].
  intros [->|H]; [eauto|]. destruct (IH H) as [x [Hx Hr]]. eauto.
Qed.

Lemma Forall2_In_dir64 {A B : Type} (R : A -> B -> Prop) (l : list A)
    (l' : list B) (x : A) :
  Forall2 R l l' -> In x l -> exists y, In y l' /\ R x y.
Proof.
  induction 1 as [|a b l l' Hab HF IH]; simpl; [tauto|].
  intros [->|H]; [eauto|]. destruct (IH H) as [y [Hy Hr]]. eauto.
Qed.

(** Every scenario of the ranking is the result of the loop body on a
    species of the catalogue. *)
Lemma ranking_especie64 sis db ranking c :
  simular_cenarios sis db = Ok ranking ->
  In (Viavel c) ranking ->
  In (dados_tec c) db /\ simular_especie sis (dados_tec c) = Ok (Viavel c).
Proof.
  intros H Hin. apply simular_cenarios_Ok64 in H.
  destruct H as (res & d & HF & _ & _ & Hp).
  apply (Permutation_in _ Hp) in Hin. apply filter_In in Hin.
  destruct Hin as [Hin _].
  destruct (Forall2_In_esq64 _ _ _ _ HF Hin) as [esp [Hesp Hr]].
  pose proof (simular_especie_dados64 _ _ _ Hr) as Hd. rewrite Hd. auto.
Qed.

End Float64Proofs.

(** ** Comparison of binary64 numbers *)



Section Float64Sort.
Import Binary64 Float64.
Context {A : Type}.



End Float64Sort.

Section Float64Mix.
Import Binary64 Float64.

(** ** The preparation loop of the optimizer *)

Lemma py_div_int_pos (x : float) (n : Z) :
  (0 < n)%Z -> py_div_int x n = Ok (PrimFloat.div x (of_int n)).
Proof.
  intros H. unfold py_div_int.
  destruct (n =? 0)%Z eqn:E; [apply Z.eqb_eq in E; lia | reflexivity].
Qed.

Lemma prepara_especie_casos64 sis esp :
  match max_fisico sis esp with
  | Ok mf => prepara_especie sis esp
             = Ok (if (mf >? 0)%Z then Some (entrada sis esp mf) else None)
  | Raise e => prepara_especie sis esp = Raise e
  end.
Proof.
  unfold prepara_especie.
  destruct (max_fisico sis esp) as [mf|e]; [|reflexivity].
  cbn [bind]. destruct (mf >? 0)%Z eqn:E; [|reflexivity].
  rewrite py_div_int_pos by lia. reflexivity.
Qed.

Lemma prepara_dados_flat64 sis db : forall acc,
  Forall (fun esp => exists mf, max_fisico sis esp = Ok mf) db ->
  prepara_dados sis db acc = Ok (acc ++ flat_map (decisao sis) db).
Proof.
  induction db as [|esp db IH]; intros acc H.
  - simpl. now rewrite app_nil_r.
  - inversion H as [|? ? [mf Hmf] Hdb]; subst.
    cbn [prepara_dados flat_map].
    pose proof (prepara_especie_casos64 sis esp) as Hp.
    unfold decisao. rewrite Hmf in Hp |- *. rewrite Hp. cbn [bind].
    destruct (mf >? 0)%Z.
    + rewrite IH by exact Hdb. now rewrite <- app_assoc.
    + rewrite IH by exact Hdb. reflexivity.
Qed.

Lemma prepara_dados_Ok64 sis db : forall acc md,
  prepara_dados sis db acc = Ok md ->
  Forall (fun esp => exists mf, max_fisico sis esp = Ok mf) db
  /\ md = acc ++ flat_map (decisao sis) db.
Proof.
  induction db as [|esp db IH]; intros acc md H.
  - simpl in H. injection H as <-. split; [constructor|].
    simpl. now rewrite app_nil_r.
  - cbn [prepara_dados] in H.
    pose proof (prepara_especie_casos64 sis esp) as Hp.
    cbn [flat_map]. unfold decisao at 1.
    destruct (max_fisico sis esp) as [mf|e] eqn:Hmf.
    + rewrite Hp in H. cbn [bind] in H.
      destruct (mf >? 0)%Z; apply IH in H; destruct H as [HF ->];
        (split; [constructor; eauto|]).
      * now rewrite <- app_assoc.
      * reflexivity.
    + rewrite Hp in H. discriminate.
Qed.

Lemma prepara_dados_Raise64 sis db : forall acc e,
  prepara_dados sis db acc = Raise e <->
  exists antes esp depois,
    db = antes ++ esp :: depois
    /\ Forall (fun x => exists mf, max_fisico sis x = Ok mf) antes
    /\ max_fisico sis esp = Raise e.
Proof.
  induction db as [|esp db IH]; intros acc e; split.
  - discriminate.
  - intros (antes & x & depois & H & _). destruct antes; discriminate.
  - intros H. cbn [prepara_dados] in H.
    pose proof (prepara_especie_casos64 sis esp) as Hp.
    destruct (max_fisico sis esp) as [mf|e'] eqn:Hmf.
    + rewrite Hp in H. cbn [bind] in H.
      destruct (mf >? 0)%Z; apply IH in H;
        destruct H as (antes & x & depois & -> & HF & Hx);
        exists (esp :: antes), x, depois; repeat split; eauto.
    + rewrite Hp in H. injection H as ->.
      exists [], esp, db. auto.
  - intros (antes & x & depois & H & HF & Hx).
    cbn [prepara_dados].
    pose proof (prepara_especie_casos64 sis esp) as Hp.
    destruct antes as [|y antes]; simpl in H; injection H as -> ->.
    + rewrite Hx in Hp. rewrite Hp. reflexivity.
    + inversion HF as [|? ? [mf Hmf] HF']; subst.
      rewrite Hmf in Hp. rewrite Hp. cbn [bind].
      assert (Hr : forall acc', prepara_dados sis (antes ++ x :: depois) acc'
                                = Raise e).
      { intros acc'. apply IH. exists antes, x, depois. auto. }
      destruct (mf >? 0)%Z; apply Hr.
Qed.

Lemma decisao_capacidade sis db m :
  In m (flat_map (decisao sis) db) ->
  exists esp, In esp db /\ max_fisico sis esp = Ok (d_max_fisico m)
    /\ (0 < d_max_fisico m)%Z /\ m = entrada sis esp (d_max_fisico m).
Proof.
  intros H. apply in_flat_map in H. destruct H as [esp [Hesp H]].
  exists esp. unfold decisao in H.
  destruct (max_fisico sis esp) as [mf|e]; [|destruct H].
  destruct (mf >? 0)%Z eqn:E; [|destruct H].
  destruct H as [<-|[]]. simpl. repeat split; auto. lia.
Qed.

(** ** The loop over the solver's answer *)

Lemma laco_mix_Ok64 (v : string -> float) : forall md a a',
  laco_mix v md a = Ok a' ->
  exists its,
    mix a' = mix a ++ its
    /\ Forall2 (item_do_dado v) (filter (selecionado v) md) its
    /\ Forall (fun m => d_max_fisico m <> 0%Z) (filter (selecionado v) md)
    /\ biomassa_total a'
       = fold_left (fun s it => PrimFloat.add s (peso it)) its
                   (biomassa_total a)
    /\ custo_total_mix a'
       = fold_left (fun s m => PrimFloat.add s
                       (PrimFloat.mul (v (d_nome m)) (custo_un m)))
                   (filter (selecionado v) md) (custo_total_mix a)
    /\ max_ciclo a'
       = fold_left (fun mx m => if PrimFloat.ltb mx (tempo_ciclo m)
                                then tempo_ciclo m else mx)
                   (filter (selecionado v) md) (max_ciclo a).
Proof.
  induction md as [|m md IH]; intros a a' H.
  - simpl in H. injection H as <-. exists []. simpl.
    rewrite app_nil_r. repeat split; constructor.
  - cbn [laco_mix] in H. cbn [filter].
    destruct (selecionado v m) eqn:E; unfold selecionado in E;
      rewrite E in H.
    + apply bind_Ok in H. destruct H as [n [Hn H]].
      apply bind_Ok in H. destruct H as [oc [Hoc H]].
      unfold py_div_int in Hoc.
      destruct (d_max_fisico m =? 0)%Z eqn:Ez; [discriminate|].
      injection Hoc as <-. apply Z.eqb_neq in Ez.
      apply IH in H. cbn in H.
      destruct H as (its & Hmix & HF & Hnz & Hb & Hc & Hmx).
      exists (item_de v m n :: its). repeat split.
      * rewrite Hmix, <- app_assoc. reflexivity.
      * constructor; [|exact HF]. split; simpl; auto.
      * constructor; assumption.
      * exact Hb.
      * exact Hc.
      * exact Hmx.
    + apply IH in H. exact H.
Qed.

Lemma otimizar_mix_ideal_Ok64 solve sis db meta res :
  otimizar_mix_ideal solve sis db meta = Ok res ->
  exists s,
    prepara_dados sis db [] = Ok (flat_map (decisao sis) db)
    /\ solve (monta_problema sis (flat_map (decisao sis) db) meta) = Ok s
    /\ interpreta sis (flat_map (decisao sis) db) s = Ok res.
Proof.
  unfold otimizar_mix_ideal. intros H.
  apply bind_Ok in H. destruct H as [md [Hmd H]].
  apply bind_Ok in H. destruct H as [s [Hs H]].
  pose proof (prepara_dados_Ok64 _ _ _ _ Hmd) as [_ E]. simpl in E. subst md.
  exists s. auto.
Qed.

Lemma interpreta_OTIMO64 sis md s lt bt mx pb :
  interpreta sis md s = Ok (OTIMO lt bt mx pb) ->
  lp_status s = LpOptimal
  /\ lt = valor_objetivo s
  /\ Forall2 (item_do_dado (varValue s)) (filter (selecionado (varValue s)) md)
             mx
  /\ Forall (fun m => d_max_fisico m <> 0%Z)
            (filter (selecionado (varValue s)) md)
  /\ bt = soma_pesos mx
  /\ payback_mix sis lt
       (soma_custos (varValue s) (filter (selecionado (varValue s)) md))
       (maior_ciclo (filter (selecionado (varValue s)) md)) = Ok pb.
Proof.
  unfold interpreta. intros H.
  destruct (lp_status s); try discriminate.
  apply bind_Ok in H. destruct H as [a [Ha H]].
  apply bind_Ok in H. destruct H as [pb' [Hpb H]].
  injection H as <- <- <- <-.
  apply laco_mix_Ok64 in Ha. simpl in Ha.
  destruct Ha as (its & Hmix & HF & Hnz & Hb & Hc & Hmx).
  rewrite Hmix. repeat split; auto.
  rewrite Hc, Hmx in Hpb. exact Hpb.
Qed.

End Float64Mix.

(** * The stated properties, on the arithmetic of the program *)

Section ClaimsBinary64.
Import Binary64 Float64.

(** ** Law of the minimum *)

(** C1, as the code has it.  Law of the minimum: for every scenario the simulator
    returns, the stocking quantity is [min(max_fisico, max_financeiro)]
    and is strictly positive, where [max_fisico] is
    [int(biomassa_max / peso_final_ideal_kg)] and [max_financeiro] is
    [int(orcamento_operacional / custo_var_unit)], both quotients being
    the binary64 quotients of lines 96 and 107. *)
Theorem C1_law_of_the_minimum_binary64 sis db ranking c :
  simular_cenarios sis db = Ok ranking ->
  In (Viavel c) ranking ->
  exists mf mfin,
    max_fisico sis (dados_tec c) = Ok mf
    /\ max_financeiro sis (dados_tec c) = Ok mfin
    /\ qtd_povoamento c = Z.min mf mfin
    /\ (0 < qtd_povoamento c)%Z.
Proof.
  intros H Hin.
  destruct (ranking_especie64 _ _ _ _ H Hin) as [_ Hsim].
  apply simular_especie_Viavel64 in Hsim.
  destruct Hsim as (mf & mfin & Hmf & Hmfin & _ & Hpos & Hc).
  apply consolida_campos64 in Hc.
  destruct Hc as (c' & Hc & _ & _ & Hq & _). injection Hc as ->.
  exists mf, mfin. rewrite Hq. auto.
Qed.

Lemma C1_law_of_the_minimum_binary64_witness :
  exists mf mfin,
    max_fisico sistema_4150 (dados_tec cenario_4150) = Ok mf
    /\ max_financeiro sistema_4150 (dados_tec cenario_4150) = Ok mfin
    /\ qtd_povoamento cenario_4150 = Z.min mf mfin
    /\ (0 < qtd_povoamento cenario_4150)%Z.
Proof.
  apply (C1_law_of_the_minimum_binary64 sistema_4150 [especie_A]
           [Viavel cenario_4150]).
  - vm_compute. reflexivity.
  - left. reflexivity.
Defined.

(** ** Bottleneck *)

(** C5, as the code has it.  Bottleneck consistency: for every scenario the
    simulator returns, the bottleneck is FINANCEIRO if and only if
    [max_financeiro < max_fisico], and FISICO otherwise, for the two counts
    that lines 96 and 107 computed in binary64. *)
Theorem C5_bottleneck_consistency_binary64 sis db ranking c :
  simular_cenarios sis db = Ok ranking ->
  In (Viavel c) ranking ->
  exists mf mfin,
    max_fisico sis (dados_tec c) = Ok mf
    /\ max_financeiro sis (dados_tec c) = Ok mfin
    /\ (gargalo c = FINANCEIRO <-> (mfin < mf)%Z)
    /\ (gargalo c = FISICO <-> (mf <= mfin)%Z).
Proof.
  intros H Hin.
  destruct (ranking_especie64 _ _ _ _ H Hin) as [_ Hsim].
  apply simular_especie_Viavel64 in Hsim.
  destruct Hsim as (mf & mfin & Hmf & Hmfin & _ & _ & Hc).
  apply consolida_campos64 in Hc.
  destruct Hc as (c' & Hc & _ & _ & _ & Hg & _). injection Hc as ->.
  exists mf, mfin. rewrite Hg. repeat split; auto.
  - destruct (mfin <? mf)%Z eqn:E; [intros _; now apply Z.ltb_lt|discriminate].
  - intros Hlt. apply Z.ltb_lt in Hlt. now rewrite Hlt.
  - destruct (mfin <? mf)%Z eqn:E; [discriminate|intros _; now apply Z.ltb_ge].
  - intros Hle. apply Z.ltb_ge in Hle. now rewrite Hle.
Qed.

Lemma C5_bottleneck_consistency_binary64_witness :
  exists mf mfin,
    max_fisico sistema_4150 (dados_tec cenario_4150) = Ok mf
    /\ max_financeiro sistema_4150 (dados_tec cenario_4150) = Ok mfin
    /\ (gargalo cenario_4150 = FINANCEIRO <-> (mfin < mf)%Z)
    /\ (gargalo cenario_4150 = FISICO <-> (mf <= mfin)%Z).
Proof.
  apply (C5_bottleneck_consistency_binary64 sistema_4150 [especie_A]
           [Viavel cenario_4150]).
  - vm_compute. reflexivity.
  - left. reflexivity.
Defined.

(** ** Capacity, occupancy and total cost *)



(** ** Target of the mix optimizer *)




End ClaimsBinary64.

(** ** The statements with exact floors and bounds, where rounding shows *)

(** C1, as stated, fails: with a capital of 4150 the simulator stocks 499
    fish of species A, while physicalMaxCount and financialMaxCount are
    both 500. *)
Lemma C1_counterexample :
  Float64.simular_cenarios sistema_4150 [especie_A]
  = Ok [Binary64.Viavel cenario_4150]
  /\ Binary64.qtd_povoamento cenario_4150 = 499%Z
  /\ physicalMaxCount sistema_4150 especie_A = 500%Z
  /\ financialMaxCount sistema_4150 especie_A = 500%Z
  /\ Z.min (physicalMaxCount sistema_4150 especie_A)
           (financialMaxCount sistema_4150 especie_A) = 500%Z.
Proof.
  split; [vm_compute; reflexivity|].
  repeat split; vm_compute; reflexivity.
Qed.

(** C5, as stated, fails: at the same input the simulator returns the
    bottleneck FINANCEIRO, while financialMaxCount is not below
    physicalMaxCount. *)
Lemma C5_counterexample :
  Float64.simular_cenarios sistema_4150 [especie_A]
  = Ok [Binary64.Viavel cenario_4150]
  /\ Binary64.gargalo cenario_4150 = FINANCEIRO
  /\ (financialMaxCount sistema_4150 especie_A
      <? physicalMaxCount sistema_4150 especie_A)%Z = false.
Proof.
  split; [vm_compute; reflexivity|].
  split; vm_compute; reflexivity.
Qed.



(** * Further properties on the arithmetic of the program *)

Section ExtrasBinary64.
Import Binary64 Float64.

(** ** Exceptions of the simulator *)

(** X1. The simulator raises an exception exactly when the loop body
    raises it on some species after returning on every species before it
    in the catalogue; the exception is then a [ZeroDivisionError], an
    [OverflowError] or a [ValueError], and never the [KeyError] of the
    sort key.  If the loop body returns on every species, the simulator
    returns. *)
Theorem X1_simulator_exceptions sis db :
  (forall e,
     simular_cenarios sis db = Raise e <->
     exists antes esp depois,
       db = antes ++ esp :: depois
       /\ Forall (fun x => exists r, simular_especie sis x = Ok r) antes
       /\ simular_especie sis esp = Raise e)
  /\ (forall e,
        simular_cenarios sis db = Raise e ->
        e = ZeroDivisionError \/ e = OverflowError \/ e = ValueError)
  /\ ((forall esp, In esp db -> exists r, simular_especie sis esp = Ok r) ->
      exists ranking, simular_cenarios sis db = Ok ranking).
Proof.
  split; [|split].
  - intros e. rewrite simular_cenarios_Raise64. apply laco_especies_Raise64.
  - intros e H. apply simular_cenarios_Raise64, laco_especies_Raise64 in H.
    destruct H as (antes & esp & depois & _ & _ & H).
    now apply simular_especie_Raise64 in H.
  - intros H. destruct (simular_cenarios sis db) as [r|e] eqn:E; [eauto|].
    apply simular_cenarios_Raise64, laco_especies_Raise64 in E.
    destruct E as (antes & esp & depois & -> & _ & Hr).
    destruct (H esp) as [r Hr']; [apply in_or_app; right; left; reflexivity|].
    congruence.
Qed.

Lemma X1_simulator_exceptions_witness :
  simular_cenarios sistema_999 [especie_T; especie_Z]
  = Raise ZeroDivisionError
  /\ simular_cenarios sistema_enorme [especie_A] = Raise OverflowError.
Proof.
  split.
  - apply (proj1 (X1_simulator_exceptions sistema_999 [especie_T; especie_Z])).
    exists [especie_T], especie_Z, []. split; [reflexivity|]. split.
    + constructor; [|constructor]. eexists. vm_compute. reflexivity.
    + vm_compute. reflexivity.
  - apply (proj1 (X1_simulator_exceptions sistema_enorme [especie_A])).
    exists [], especie_A, []. split; [reflexivity|]. split.
    + constructor.
    + vm_compute. reflexivity.
Defined.

(** ** Reasons of infeasibility *)

(** X2. The loop body returns an infeasible result for a species exactly
    in two cases, line 96 having returned [max_fisico] in both: the budget
    left after the fixed cost, as computed, is [<= 0], and the reason is
    'Custo fixo excede capital.'; or that budget is positive, line 107
    returned [max_financeiro], [min(max_fisico, max_financeiro) <= 0], and
    the reason is 'Capital insuficiente.'.  The result carries the name of
    the species. *)
Theorem X2_infeasibility_reasons sis esp n m :
  simular_especie sis esp = Ok (Inviavel n m) <->
  n = nome esp
  /\ exists mf,
       max_fisico sis esp = Ok mf
       /\ ((PrimFloat.leb (orcamento_operacional sis esp) 0 = true
            /\ m = CustoFixoExcedeCapital)
           \/ (PrimFloat.leb (orcamento_operacional sis esp) 0 = false
               /\ exists mfin,
                    max_financeiro sis esp = Ok mfin
                    /\ (Z.min mf mfin <= 0)%Z
                    /\ m = CapitalInsuficiente)).
Proof.
  split.
  - intros H. apply simular_especie_casos64 in H.
    destruct H as [mf [Hmf [[Hle H]|[Hle [mfin [Hmfin [[Hmin H]|[_ H]]]]]]]].
    + injection H as -> ->. split; [reflexivity|]. exists mf. auto.
    + injection H as -> ->. split; [reflexivity|]. exists mf.
      split; [exact Hmf|]. right. split; [exact Hle|]. exists mfin. auto.
    + apply consolida_campos64 in H. destruct H as (c & H & _). discriminate.
  - intros [-> [mf [Hmf [[Hle ->]|[Hle [mfin [Hmfin [Hmin ->]]]]]]]];
      rewrite simular_especie_passos64, Hmf; cbn [bind]; rewrite Hle.
    + reflexivity.
    + rewrite Hmfin. cbn [bind].
      apply Z.leb_le in Hmin. now rewrite Hmin.
Qed.

Lemma X2_infeasibility_reasons_witness :
  simular_especie sistema_999 especie_T = Ok (Inviavel "T" CapitalInsuficiente)
  /\ simular_especie sistema_L especie_L
     = Ok (Inviavel "L" CapitalInsuficiente).
Proof.
  split.
  - apply (proj2 (X2_infeasibility_reasons sistema_999 especie_T "T"
                    CapitalInsuficiente)).
    split; [reflexivity|]. exists 500%Z. split; [vm_compute; reflexivity|].
    right. split; [vm_compute; reflexivity|]. exists 0%Z.
    split; [vm_compute; reflexivity|]. split; [|reflexivity].
    vm_compute. discriminate.
  - apply (proj2 (X2_infeasibility_reasons sistema_L especie_L "L"
                    CapitalInsuficiente)).
    split; [reflexivity|]. exists 0%Z. split; [vm_compute; reflexivity|].
    right. split; [vm_compute; reflexivity|]. exists 704%Z.
    split; [vm_compute; reflexivity|]. split; [|reflexivity].
    vm_compute. discriminate.
Defined.

(** ** The ranking and the catalogue *)

Lemma simular_especie_criterio64 sis esp r :
  simular_especie sis esp = Ok r ->
  e_viavel r = criterio_viavel sis esp
  /\ (e_viavel r = true -> dados_de r = Some esp).
Proof.
  intros H. pose proof H as H'. apply simular_especie_casos64 in H.
  unfold criterio_viavel.
  destruct H as [mf [Hmf [[Hle ->]|[Hle [mfin [Hmfin [[Hmin ->]|[Hpos H]]]]]]]];
    rewrite Hmf.
  - destruct (max_financeiro sis esp); rewrite ?Hle; simpl;
      (split; [reflexivity|discriminate]).
  - rewrite Hmfin, Hle. simpl.
    assert (E : (0 <? Z.min mf mfin)%Z = false) by (apply Z.ltb_ge; lia).
    rewrite E. split; [reflexivity|discriminate].
  - rewrite Hmfin, Hle. simpl.
    assert (E : (0 <? Z.min mf mfin)%Z = true) by (apply Z.ltb_lt; lia).
    rewrite E. apply consolida_campos64 in H.
    destruct H as (c & -> & _ & Hd & _). simpl. rewrite Hd. auto.
Qed.

Lemma viaveis_do_catalogo64 sis db res :
  Forall2 (fun esp r => simular_especie sis esp = Ok r) db res ->
  map dados_de (filter e_viavel res)
  = map Some (filter (criterio_viavel sis) db).
Proof.
  induction 1 as [|esp r db res Hr HF IH]; [reflexivity|].
  cbn [filter]. destruct (simular_especie_criterio64 _ _ _ Hr) as [Hc Hd].
  rewrite <- Hc. destruct (e_viavel r); [|exact IH].
  cbn [map]. rewrite IH, Hd by reflexivity. reflexivity.
Qed.

(** X3. The ranking holds one scenario for each species of the catalogue
    that has money left after the fixed cost and for which lines 96 and
    107, as computed, leave room and money for at least one fish; it holds
    nothing else. *)
Theorem X3_ranking_is_the_viable_species sis db ranking :
  simular_cenarios sis db = Ok ranking ->
  Permutation (map dados_de ranking)
              (map Some (filter (criterio_viavel sis) db))
  /\ List.length ranking = List.length (filter (criterio_viavel sis) db).
Proof.
  intros H. apply simular_cenarios_Ok64 in H.
  destruct H as (res & d & HF & _ & _ & Hp).
  assert (P : Permutation (map dados_de ranking)
                          (map Some (filter (criterio_viavel sis) db))).
  { rewrite <- (viaveis_do_catalogo64 _ _ _ HF). now apply Permutation_map. }
  split; [exact P|].
  apply Permutation_length in P. now rewrite !length_map in P.
Qed.

Lemma X3_ranking_is_the_viable_species_witness :
  Permutation (map dados_de [Viavel cenario_104])
              (map Some (filter (criterio_viavel sistema_L)
                                [especie_L; especie_A]))
  /\ List.length [Viavel cenario_104]
     = List.length (filter (criterio_viavel sistema_L)
                           [especie_L; especie_A]).
Proof.
  apply (X3_ranking_is_the_viable_species sistema_L [especie_L; especie_A]).
  vm_compute. reflexivity.
Defined.




(** X22. The ranking holds viable scenarios only, and a scenario is in the
    ranking exactly when it is the result of the loop body on a species of
    the catalogue. *)
Theorem X22_species_by_species sis db ranking :
  simular_cenarios sis db = Ok ranking ->
  (forall r, In r ranking -> exists c, r = Viavel c)
  /\ (forall c,
        In (Viavel c) ranking <->
        exists esp, In esp db /\ simular_especie sis esp = Ok (Viavel c)).
Proof.
  intros H. pose proof H as H'. apply simular_cenarios_Ok64 in H.
  destruct H as (res & d & HF & _ & _ & Hp). split.
  - intros r Hr. apply (Permutation_in _ Hp) in Hr. apply filter_In in Hr.
    destruct Hr as [_ Hr]. destruct r; [eauto | discriminate].
  - intros c. split.
    + intros Hin. destruct (ranking_especie64 _ _ _ _ H' Hin). eauto.
    + intros [esp [Hesp Hsim]].
      destruct (Forall2_In_dir64 _ _ _ _ HF Hesp) as [r [Hr Hsim']].
      simpl in Hsim'. rewrite Hsim in Hsim'. injection Hsim' as <-.
      apply (Permutation_in _ (Permutation_sym Hp)). apply filter_In. auto.
Qed.

Lemma X22_species_by_species_witness :
  (forall r, In r [Viavel cenario_104] -> exists c, r = Viavel c)
  /\ (forall c,
        In (Viavel c) [Viavel cenario_104] <->
        exists esp, In esp [especie_L; especie_A]
                    /\ simular_especie sistema_L esp = Ok (Viavel c)).
Proof.
  apply (X22_species_by_species sistema_L [especie_L; especie_A]).
  vm_compute. reflexivity.
Defined.

(** ** The decision set of the optimizer *)

(** X12. The preparation loop of the optimizer returns exactly when line
    195 returns on every species; [model_data] then holds, in the order of
    the catalogue, one entry for each species with [max_fisico > 0], built
    from that [max_fisico].  It raises exactly what line 195 raises on the
    first species on which it raises. *)
Theorem X12_decision_set sis db :
  (forall md,
     prepara_dados sis db [] = Ok md <->
     Forall (fun esp => exists mf, max_fisico sis esp = Ok mf) db
     /\ md = flat_map (decisao sis) db)
  /\ (forall e,
        prepara_dados sis db [] = Raise e <->
        exists antes esp depois,
          db = antes ++ esp :: depois
          /\ Forall (fun x => exists mf, max_fisico sis x = Ok mf) antes
          /\ max_fisico sis esp = Raise e)
  /\ (forall md m,
        prepara_dados sis db [] = Ok md -> In m md ->
        exists esp,
          In esp db /\ max_fisico sis esp = Ok (d_max_fisico m)
          /\ (0 < d_max_fisico m)%Z
          /\ m = entrada sis esp (d_max_fisico m)).
Proof.
  split; [|split].
  - intros md. split.
    + intros H. apply prepara_dados_Ok64 in H. exact H.
    + intros [H ->]. now rewrite prepara_dados_flat64.
  - intros e. apply prepara_dados_Raise64.
  - intros md m H Hin. apply prepara_dados_Ok64 in H. destruct H as [_ ->].
    now apply decisao_capacidade.
Qed.

Lemma X12_decision_set_witness :
  prepara_dados sistema_L [especie_L; especie_A] []
  = Ok [entrada sistema_L especie_A 104]
  /\ prepara_dados sistema_enorme [especie_A] [] = Raise OverflowError.
Proof.
  split.
  - apply (proj1 (X12_decision_set sistema_L [especie_L; especie_A])).
    split; [|vm_compute; reflexivity].
    repeat constructor; eexists; vm_compute; reflexivity.
  - apply (proj1 (proj2 (X12_decision_set sistema_enorme [especie_A]))).
    exists [], especie_A, []. split; [reflexivity|].
    split; [constructor|]. vm_compute. reflexivity.
Defined.

(** ** The reported mix *)

(** X14. An OTIMO result reports what the solver left: [lucro_total] is
    the value the solver has for the objective; [mix] holds, in the order
    of [model_data], one entry for each species with [qtd > 0], with
    [int(qtd)], the weight [qtd * peso_final], the cycle and the occupancy
    [(qtd / max_fisico) * 100]; [biomassa_total] is the sum of the weights
    of [mix]; the payback is computed from the sum of [qtd * custo_un] and
    the longest cycle over the same species. *)
Theorem X14_mix_and_totals solve sis db meta lt bt mx pb :
  otimizar_mix_ideal solve sis db meta = Ok (OTIMO lt bt mx pb) ->
  exists md s,
    prepara_dados sis db [] = Ok md
    /\ solve (monta_problema sis md meta) = Ok s
    /\ lp_status s = LpOptimal
    /\ lt = valor_objetivo s
    /\ Forall2 (item_do_dado (varValue s))
               (filter (selecionado (varValue s)) md) mx
    /\ bt = soma_pesos mx
    /\ payback_mix sis lt
         (soma_custos (varValue s) (filter (selecionado (varValue s)) md))
         (maior_ciclo (filter (selecionado (varValue s)) md)) = Ok pb.
Proof.
  intros H. apply otimizar_mix_ideal_Ok64 in H.
  destruct H as (s & Hmd & Hs & Hi).
  apply interpreta_OTIMO64 in Hi.
  destruct Hi as (Hst & Hlt & HF & _ & Hb & Hp).
  exists (flat_map (decisao sis) db), s. repeat split; auto.
Qed.

Lemma X14_mix_and_totals_witness :
  exists md s,
    prepara_dados sistema_A [especie_A; especie_D] [] = Ok md
    /\ solver_D (monta_problema sistema_A md 100) = Ok s
    /\ lp_status s = LpOptimal
    /\ Some 894.00000000000011%float = valor_objetivo s
    /\ Forall2 (item_do_dado (varValue s))
               (filter (selecionado (varValue s)) md)
               [item_de valores_D (entrada sistema_A especie_D 200) 200]
    /\ 400%float
       = soma_pesos [item_de valores_D (entrada sistema_A especie_D 200) 200]
    /\ payback_mix sistema_A (Some 894.00000000000011%float)
         (soma_custos (varValue s) (filter (selecionado (varValue s)) md))
         (maior_ciclo (filter (selecionado (varValue s)) md))
       = Ok 34.953020134228183%float.
Proof.
  apply (X14_mix_and_totals solver_D sistema_A [especie_A; especie_D] 100).
  vm_compute. reflexivity.
Defined.

(** X13. Outcomes of the optimizer.  What the preparation loop raises is
    raised, and so is what the solver raises: nothing is caught.  When
    the solver returns, a status [Infeasible] gives IMPOSSIVEL with
    'Recursos insuficientes.', any status other than [Optimal] and
    [Infeasible] gives ERRO with 'Erro numerico.', and [Optimal] gives
    either an OTIMO result with the solver's value for the objective or
    an exception of lines 244 to 264; that exception is a [TypeError] when
    the solver has no value for the objective and a species with a
    positive cycle was selected. *)
Theorem X13_optimizer_outcomes solve sis db meta :
  (forall e,
     prepara_dados sis db [] = Raise e ->
     otimizar_mix_ideal solve sis db meta = Raise e)
  /\ (forall md,
        prepara_dados sis db [] = Ok md ->
        (forall e,
           solve (monta_problema sis md meta) = Raise e ->
           otimizar_mix_ideal solve sis db meta = Raise e)
        /\ (forall s,
              solve (monta_problema sis md meta) = Ok s ->
              (lp_status s = LpInfeasible ->
               otimizar_mix_ideal solve sis db meta
               = Ok (IMPOSSIVEL RecursosInsuficientes))
              /\ (lp_status s <> LpOptimal -> lp_status s <> LpInfeasible ->
                  otimizar_mix_ideal solve sis db meta
                  = Ok (ERRO ErroNumerico))
              /\ (lp_status s = LpOptimal ->
                  (exists e, otimizar_mix_ideal solve sis db meta = Raise e)
                  \/ exists bt mx pb,
                       otimizar_mix_ideal solve sis db meta
                       = Ok (OTIMO (valor_objetivo s) bt mx pb))
              /\ (lp_status s = LpOptimal ->
                  forall a,
                    laco_mix (varValue s) md acumulado_inicial = Ok a ->
                    PrimFloat.ltb 0 (max_ciclo a) = true ->
                    valor_objetivo s = None ->
                    otimizar_mix_ideal solve sis db meta = Raise TypeError))).
Proof.
  unfold otimizar_mix_ideal. split.
  - intros e ->. reflexivity.
  - intros md ->. cbn [bind]. split.
    + intros e ->. reflexivity.
    + intros s ->. cbn [bind]. unfold interpreta. repeat split.
      * intros ->. reflexivity.
      * intros H1 H2. destruct (lp_status s); try reflexivity; contradiction.
      * intros ->.
        destruct (laco_mix (varValue s) md acumulado_inicial) as [a|e];
          [|left; eexists; reflexivity].
        cbn [bind].
        destruct (payback_mix sis (valor_objetivo s) (custo_total_mix a)
                              (max_ciclo a)) as [pb|e];
          [|left; eexists; reflexivity].
        right. do 3 eexists. reflexivity.
      * intros -> a -> Hmx Hnone. cbn [bind]. unfold payback_mix.
        rewrite Hmx, Hnone. reflexivity.
Qed.

Lemma X13_optimizer_outcomes_witness :
  otimizar_mix_ideal solver_colisao sistema_A [especie_A; especie_D] 0
  = Raise PulpSolverError
  /\ otimizar_mix_ideal solver_D_sem_objetivo sistema_A [especie_A; especie_D] 0
     = Raise TypeError.
Proof.
  destruct (proj2 (X13_optimizer_outcomes solver_colisao sistema_A
                     [especie_A; especie_D] 0)
              _ eq_refl) as [H1 _].
  destruct (proj2 (X13_optimizer_outcomes solver_D_sem_objetivo sistema_A
                     [especie_A; especie_D] 0)
              _ eq_refl) as [_ H2].
  split.
  - apply H1. reflexivity.
  - destruct (H2 _ eq_refl) as (_ & _ & _ & H).
    eapply H; reflexivity.
Defined.

(** X18. When line 195 gives no species a positive [max_fisico], the
    decision set is empty and the outcome is the solver's: what it raises
    is raised; on [Optimal] the result is OTIMO with the solver's value
    for the objective, which may be [None], a biomass of 0, an empty mix
    and a payback of 0; on [Infeasible] it is IMPOSSIVEL, and ERRO on any
    other status. *)
Theorem X18_nothing_fits solve sis db meta :
  Forall (fun esp => exists mf, max_fisico sis esp = Ok mf /\ (mf <= 0)%Z)
         db ->
  prepara_dados sis db [] = Ok []
  /\ (forall e,
        solve (monta_problema sis [] meta) = Raise e ->
        otimizar_mix_ideal solve sis db meta = Raise e)
  /\ (forall s,
        solve (monta_problema sis [] meta) = Ok s ->
        otimizar_mix_ideal solve sis db meta
        = Ok match lp_status s with
             | LpOptimal => OTIMO (valor_objetivo s) 0 [] 0
             | LpInfeasible => IMPOSSIVEL RecursosInsuficientes
             | _ => ERRO ErroNumerico
             end).
Proof.
  intros H.
  assert (Hd : flat_map (decisao sis) db = []).
  { induction H as [|esp db [mf [Hmf Hle]] _ IH]; [reflexivity|].
    cbn [flat_map]. rewrite IH. unfold decisao. rewrite Hmf.
    assert (E : (mf >? 0)%Z = false)
      by (rewrite Z.gtb_ltb; apply Z.ltb_ge; lia).
    now rewrite E. }
  assert (Hp : prepara_dados sis db [] = Ok []).
  { rewrite prepara_dados_flat64, Hd; [reflexivity|].
    eapply Forall_impl; [|exact H]. intros esp [mf [Hmf _]]. eauto. }
  split; [exact Hp|]. unfold otimizar_mix_ideal. rewrite Hp. cbn [bind].
  split.
  - intros e ->. reflexivity.
  - intros s ->. cbn [bind]. unfold interpreta.
    destruct (lp_status s); reflexivity.
Qed.

Lemma X18_nothing_fits_witness :
  prepara_dados sistema_L [especie_L] [] = Ok []
  /\ otimizar_mix_ideal solver_sem_objetivo sistema_L [especie_L] 0
     = Ok (OTIMO None 0 [] 0).
Proof.
  assert (H : Forall (fun esp => exists mf, max_fisico sistema_L esp = Ok mf
                                            /\ (mf <= 0)%Z) [especie_L]).
  { constructor; [|constructor]. exists 0%Z.
    split; [vm_compute; reflexivity | lia]. }
  split.
  - exact (proj1 (X18_nothing_fits solver_sem_objetivo sistema_L
                    [especie_L] 0 H)).
  - exact (proj2 (proj2 (X18_nothing_fits solver_sem_objetivo sistema_L
                           [especie_L] 0 H)) _ eq_refl).
Defined.

(** X19. Once the simulator has returned for a farm and a catalogue, the
    preparation loop of the optimizer returns for them too: line 195
    repeats line 96.  The optimizer then raises only what the solver
    raises, or what lines 244 to 264 raise on the solver's answer. *)
Theorem X19_ranking_then_preparation solve sis db meta ranking :
  simular_cenarios sis db = Ok ranking ->
  prepara_dados sis db [] = Ok (flat_map (decisao sis) db)
  /\ (forall e,
        otimizar_mix_ideal solve sis db meta = Raise e ->
        solve (monta_problema sis (flat_map (decisao sis) db) meta) = Raise e
        \/ exists s,
             solve (monta_problema sis (flat_map (decisao sis) db) meta)
             = Ok s
             /\ lp_status s = LpOptimal
             /\ interpreta sis (flat_map (decisao sis) db) s = Raise e).
Proof.
  intros H. apply simular_cenarios_Ok64 in H.
  destruct H as (res & d & HF & _).
  assert (Hp : prepara_dados sis db [] = Ok (flat_map (decisao sis) db)).
  { apply (prepara_dados_flat64 sis db []).
    apply Forall_forall. intros esp Hesp.
    destruct (Forall2_In_dir64 _ _ _ _ HF Hesp) as [r [_ Hr]].
    apply simular_especie_casos64 in Hr. destruct Hr as [mf [Hmf _]]. eauto. }
  split; [exact Hp|].
  intros e He. unfold otimizar_mix_ideal in He. rewrite Hp in He.
  cbn [bind] in He. apply bind_Raise in He.
  destruct He as [He|[s [Hs He]]]; [left; exact He|].
  right. exists s. split; [exact Hs|]. split; [|exact He].
  unfold interpreta in He. destruct (lp_status s); try discriminate.
  reflexivity.
Qed.

Lemma X19_ranking_then_preparation_witness :
  prepara_dados sistema_L [especie_L; especie_A] []
  = Ok (flat_map (decisao sistema_L) [especie_L; especie_A])
  /\ (forall e,
        otimizar_mix_ideal solver_D sistema_L [especie_L; especie_A] 0
        = Raise e ->
        solver_D (monta_problema sistema_L
                    (flat_map (decisao sistema_L) [especie_L; especie_A]) 0)
        = Raise e
        \/ exists s,
             solver_D (monta_problema sistema_L
                         (flat_map (decisao sistema_L)
                                   [especie_L; especie_A]) 0)
             = Ok s
             /\ lp_status s = LpOptimal
             /\ interpreta sistema_L
                  (flat_map (decisao sistema_L) [especie_L; especie_A]) s
                = Raise e).
Proof.
  apply (X19_ranking_then_preparation solver_D sistema_L
           [especie_L; especie_A] 0 [Viavel cenario_104]).
  vm_compute. reflexivity.
Defined.

End ExtrasBinary64.
